(** * JobRunner: lifecycle reporting of background jobs

    A shallow embedding of [include/service/jobs/job_runner.js] and the
    properties of its lifecycle operations.

    The JavaScript object [this] becomes a record that is threaded through a
    small state / trace / exception monad.  Calls to the collaborators that
    are not part of the file (the DAO, the logger, the validation service,
    the identifier generator) are recorded as a trace of effects; the
    callbacks handed to the DAO are kept in the trace as functions, so that
    a reply of the DAO can be delivered to them afterwards.

    The second part embeds
    [include/service/media/renderers/slideshare_media_renderer.js] in the
    same way, in a module of its own. *)

From Stdlib Require Import Bool List String Ascii ZArith QArith Lia.
From Stdlib Require Import DecimalString.
From Stdlib Require DecimalPos DecimalZ.
Import ListNotations.

Local Open Scope list_scope.
Local Open Scope string_scope.

(** ** JavaScript values *)

(** Numbers.  Every finite double is a rational, and the program only
    compares numbers (it never computes with them), so a finite number is
    kept as the rational it denotes. *)
Inductive number : Type :=
  | NaN
  | PosInfinity
  | NegInfinity
  | Fin (q : Q).

(** An [Error] object, with the three properties the program can observe. *)
Record error : Type := mkError {
  err_name : string;
  err_message : string;
  err_stack : string
}.

(** The values that reach the job runner: the primitives and [Error]
    objects. *)
Inductive value : Type :=
  | VUndefined
  | VNull
  | VBool (b : bool)
  | VNum (n : number)
  | VStr (s : string)
  | VError (e : error).

(** What a [throw] carries.  [TypeErrorOnNull m] is the runtime's complaint
    about calling method [m] on [null]. *)
Inductive exn : Type :=
  | ErrorExn (msg : string)
  | TypeErrorOnNull (method : string).

(** *** Comparison of numbers *)

(** [x < y] on numbers; [None] is the "undefined" answer on NaN. *)
Definition num_lt (x y : number) : option bool :=
  match x, y with
  | NaN, _ | _, NaN => None
  | PosInfinity, _ => Some false
  | _, NegInfinity => Some false
  | NegInfinity, _ => Some true
  | _, PosInfinity => Some true
  | Fin a, Fin b => Some (negb (Qle_bool b a))
  end.

(** [x <= y] is [not (y < x)], and false when that is undefined. *)
Definition num_le (x y : number) : bool :=
  match num_lt y x with
  | Some false => true
  | _ => false
  end.

(** [x > y] is [y < x], and false when that is undefined. *)
Definition num_gt (x y : number) : bool :=
  match num_lt y x with
  | Some true => true
  | _ => false
  end.

Definition num_is_nan (x : number) : bool :=
  match x with
  | NaN => true
  | _ => false
  end.

Definition zero : number := Fin 0.
Definition one : number := Fin 1.

(** ** The collaborators *)

(** Functions of the runtime and of the rest of the application that the
    file calls and does not define.  They are parameters of the whole
    development: every theorem holds whatever they compute. *)
Class Platform : Type := {
  (** ECMAScript [Number::toString]. *)
  NumberToString : number -> string;
  (** ECMAScript [ToNumber] on a string. *)
  StringToNumber : string -> number;
  (** [JSON.stringify], followed by the conversion to a string that
      [String.prototype.replace] applies to its callback's result. *)
  JSON_stringify : value -> string;
  (** Node's [util.inspect]. *)
  util_inspect : value -> string;
  (** [pb.validation.isFloat(val, required, strict)]. *)
  isFloat : value -> bool -> bool -> bool;
  (** [pb.validation.validateNonEmptyStr(val, required)]. *)
  validateNonEmptyStr : value -> bool -> bool;
  (** [pb.system.getWorkerId()]. *)
  getWorkerId : value;
  (** [pb.utils.uniqueId().toString()], at the n-th call of the generator. *)
  uniqueId : nat -> string
}.

Section Coercions.

Context {P : Platform}.

(** [ToBoolean]. *)
Definition truthy (v : value) : bool :=
  match v with
  | VUndefined | VNull => false
  | VBool b => b
  | VNum NaN => false
  | VNum (Fin q) => negb (Qeq_bool q 0)
  | VNum _ => true
  | VStr s => negb (String.eqb s "")
  | VError _ => true
  end.

(** [Error.prototype.toString]. *)
Definition error_to_string (e : error) : string :=
  if String.eqb (err_name e) "" then err_message e
  else if String.eqb (err_message e) "" then err_name e
  else err_name e ++ ": " ++ err_message e.

(** [ToString]; an object is first turned into a primitive by its
    [toString]. *)
Definition ToString (v : value) : string :=
  match v with
  | VUndefined => "undefined"
  | VNull => "null"
  | VBool true => "true"
  | VBool false => "false"
  | VNum n => NumberToString n
  | VStr s => s
  | VError e => error_to_string e
  end.

(** [ToNumber]; an [Error] has the default [valueOf], so its primitive is
    again its [toString]. *)
Definition ToNumber (v : value) : number :=
  match v with
  | VUndefined => NaN
  | VNull => zero
  | VBool true => one
  | VBool false => zero
  | VNum n => n
  | VStr s => StringToNumber s
  | VError e => StringToNumber (error_to_string e)
  end.

(** The global [isNaN]. *)
Definition isNaN (v : value) : bool := num_is_nan (ToNumber v).

(** [util.isError]. *)
Definition isError (v : value) : bool :=
  match v with
  | VError _ => true
  | _ => false
  end.

(** [a || b], with [b] given as the value it evaluates to. *)
Definition js_or (a b : value) : value := if truthy a then a else b.

(** [v.stack]: only an [Error] has the property. *)
Definition stack_of (v : value) : value :=
  match v with
  | VError e => VStr (err_stack e)
  | _ => VUndefined
  end.

(** *** [util.format] *)

Definition is_directive (c : ascii) : bool :=
  Ascii.eqb c "s" || Ascii.eqb c "d" || Ascii.eqb c "j".

(** The replacement of one of [%s], [%d], [%j] by an argument. *)
Definition render (c : ascii) (v : value) : string :=
  if Ascii.eqb c "s" then ToString v
  else if Ascii.eqb c "d" then NumberToString (ToNumber v)
  else JSON_stringify v.

(** The replacement of the matches of [/%[sdj%]/g] from left to right.
    The result is the new text and the arguments left over. *)
Fixpoint format_scan (f : string) (args : list value) {struct f}
  : string * list value :=
  match f with
  | EmptyString => (EmptyString, args)
  | String c tl =>
      if negb (Ascii.eqb c "%") then
        let '(s, a) := format_scan tl args in (String c s, a)
      else
        match tl with
        | EmptyString => (String c EmptyString, args)
        | String d rest =>
            if Ascii.eqb d "%" then
              let '(s, a) := format_scan rest args in (String "%" s, a)
            else if is_directive d then
              match args with
              | [] =>
                  let '(s, a) := format_scan rest [] in
                  (String "%" (String d s), a)
              | v :: args' =>
                  let '(s, a) := format_scan rest args' in
                  (render d v ++ s, a)
              end
            else
              let '(s, a) := format_scan tl args in (String "%" s, a)
        end
  end.

(** An argument without a placeholder is appended after a space: an object
    through [inspect], anything else through [ToString]. *)
Definition format_extra (v : value) : string :=
  match v with
  | VError _ => " " ++ util_inspect v
  | _ => " " ++ ToString v
  end.

Fixpoint join_inspect (vs : list value) : string :=
  match vs with
  | [] => ""
  | [v] => util_inspect v
  | v :: vs' => util_inspect v ++ " " ++ join_inspect vs'
  end.

(** [util.format(f, ...rest)] on the list of its arguments. *)
Definition util_format (args : list value) : string :=
  match args with
  | VStr f :: rest =>
      let '(s, extra) := format_scan f rest in
      s ++ String.concat "" (map format_extra extra)
  | _ => join_inspect args
  end.

End Coercions.

(** ** Documents handed to the persistence layer *)

(** The instance of the DAO that [init] creates. *)
Inductive DAO : Type := new_DAO.

(** Modelled from the spec: [pb.DAO.getIDWhere], the key-query constructor
    that builds an equality filter on the job's id.  The class DAO is not
    part of the file. *)
Record id_where : Type := mkWhere { where_id : value }.

Definition getIDWhere (i : value) : id_where := mkWhere i.

(** The object that [onStart] saves: the key query, extended in place. *)
Record job_doc : Type := mkJobDoc {
  job_where : id_where;
  job_object_type : string;
  job_name : value;
  job_status : value;
  job_progress : value
}.

(** The object that [log] persists. *)
Record statement : Type := mkStatement {
  object_type : string;
  job_id : value;
  worker_id : value;
  st_name : value;
  message : string;
  metadata : list value
}.

(** The object under [$set]; [None] is a key that is not there. *)
Record set_doc : Type := mkSet {
  set_status : option value;
  set_progress : option value;
  set_error : option value
}.

(** The object [updates]: [u_inc] is [$inc: {progress: _}]. *)
Record update_doc : Type := mkUpdate {
  u_inc : option value;
  u_set : option set_doc
}.

(** ** Effects *)

(** Calls of the logger [pb.log]. *)
Inductive log_call : Type :=
  | LogDebug (args : list value)
  | LogError (args : list value).

(** A callback [function(err, result)] given to the DAO.  The three
    callbacks of the file only ever call the logger. *)
Definition callback : Type := value -> value -> list log_call.

Inductive effect : Type :=
  | Sink (c : log_call)
  | DaoUpdate (st : statement)
  | DaoSave (job : job_doc) (cb : callback)
  | DaoUpdateFields (coll : string) (query : id_where) (updates : update_doc)
      (cb : callback).

(** ** The instance and the monad of its methods *)

Record JobRunner : Type := mkJobRunner {
  dao : option DAO;
  id : value;
  name : value;
  chunkOfWorkPercentage : value
}.

(** The state a method runs in: the instance, the number of identifiers the
    generator has handed out, and the number of objects allocated so far
    (an object is identified by its rank of allocation). *)
Record world : Type := mkWorld {
  this : JobRunner;
  uid_calls : nat;
  next_ref : nat
}.

Inductive completion (A : Type) : Type :=
  | Normal (a : A)
  | Throw (e : exn).

Arguments Normal {A} a.
Arguments Throw {A} e.

Record outcome (A : Type) : Type := mkOutcome {
  after : world;
  effects : list effect;
  result : completion A
}.

Arguments mkOutcome {A} after effects result.
Arguments after {A} o.
Arguments effects {A} o.
Arguments result {A} o.

Definition M (A : Type) : Type := world -> outcome A.

Definition ret {A} (a : A) : M A :=
  fun w => mkOutcome w [] (Normal a).

Definition bind {A B} (m : M A) (k : A -> M B) : M B :=
  fun w =>
    let o := m w in
    match result o with
    | Normal a =>
        let o' := k a (after o) in
        mkOutcome (after o') (effects o ++ effects o')%list (result o')
    | Throw e => mkOutcome (after o) (effects o) (Throw e)
    end.

Notation "x <- m ;; k" := (bind m (fun x => k))
  (at level 61, m at next level, right associativity).
Notation "m ;; k" := (bind m (fun _ => k))
  (at level 61, right associativity).

Definition throw {A} (e : exn) : M A :=
  fun w => mkOutcome w [] (Throw e).

Definition get_this : M JobRunner :=
  fun w => mkOutcome w [] (Normal (this w)).

Definition set_this (j : JobRunner) : M unit :=
  fun w => mkOutcome (mkWorld j (uid_calls w) (next_ref w)) [] (Normal tt).

Definition emit (e : effect) : M unit :=
  fun w => mkOutcome w [e] (Normal tt).

(** [{}]: a new object, known by its reference. *)
Definition alloc : M nat :=
  fun w =>
    mkOutcome (mkWorld (this w) (uid_calls w) (S (next_ref w))) []
      (Normal (next_ref w)).

(** [this.dao.m(...)]: the call is the effect [e], unless [this.dao] is
    [null]. *)
Definition dao_call (m : string) (e : effect) : M unit :=
  j <- get_this ;;
  match dao j with
  | Some _ => emit e
  | None => throw (TypeErrorOnNull m)
  end.

(** What a method returns: [this], or a value. *)
Inductive returned : Type :=
  | RetThis
  | RetVal (v : value).

(** [new JobRunner()]. *)
Definition new_JobRunner : JobRunner :=
  {| dao := None;
     id := VNull;
     name := VUndefined;
     chunkOfWorkPercentage := VNum one |}.

Definition JOB_LOG_STORE_NAME : string := "job_log".
Definition JOB_STORE_NAME : string := "job_run".
Definition DEFAULT_START_STATUS : string := "RUNNING".
Definition DEFAULT_DONE_STATUS : string := "COMPLETED".
Definition DEFAULT_ERROR_STATUS : string := "ERRORED".

Section Methods.

Context {P : Platform}.

(** [pb.utils.uniqueId().toString()]. *)
Definition fresh_id : M value :=
  fun w =>
    mkOutcome (mkWorld (this w) (S (uid_calls w)) (next_ref w)) []
      (Normal (VStr (uniqueId (uid_calls w)))).

(** [this.dao = d], [this.id = i], [this.name = n] and
    [this.chunkOfWorkPercentage = c]. *)
Definition set_dao (d : option DAO) : M unit :=
  j <- get_this ;;
  set_this {| dao := d; id := id j; name := name j;
              chunkOfWorkPercentage := chunkOfWorkPercentage j |}.

Definition set_id (i : value) : M unit :=
  j <- get_this ;;
  set_this {| dao := dao j; id := i; name := name j;
              chunkOfWorkPercentage := chunkOfWorkPercentage j |}.

Definition set_name (n : value) : M unit :=
  j <- get_this ;;
  set_this {| dao := dao j; id := id j; name := n;
              chunkOfWorkPercentage := chunkOfWorkPercentage j |}.

Definition set_chunk (c : value) : M unit :=
  j <- get_this ;;
  set_this {| dao := dao j; id := id j; name := name j;
              chunkOfWorkPercentage := c |}.

Definition init (name0 jobId : value) : M returned :=
  set_dao (Some new_DAO) ;;
  i <- (if truthy jobId then ret jobId else fresh_id) ;;
  set_id i ;;
  j <- get_this ;;
  set_name (js_or name0 (id j)) ;;
  ret RetThis.

Definition getId : M value :=
  j <- get_this ;;
  ret (id j).

Definition chunk_message : string :=
  "The chunkOfWorkPercentage must be a value between 0 (exclusive) and 1 (inclusive)".

Definition setChunkOfWorkPercentage (chunk : value) : M returned :=
  if isNaN chunk || num_le (ToNumber chunk) zero
     || num_gt (ToNumber chunk) one
  then throw (ErrorExn chunk_message)
  else
    set_chunk chunk ;;
    ret RetThis.

Definition getChunkOfWorkPercentage : M value :=
  j <- get_this ;;
  ret (chunkOfWorkPercentage j).

Definition run : M returned :=
  throw (ErrorExn "This function must be overriden by an extending prototype").

(** [log(...args)], on the list of its arguments. *)
Definition log (arguments : list value) : M returned :=
  match arguments with
  | [] => ret (RetVal VUndefined)
  | a0 :: rest =>
      j <- get_this ;;
      let args := VStr ((ToString (name j) ++ ": ") ++ ToString a0) :: rest in
      let meta : list value := [] in
      let message0 :=
        match rest with
        | [] => (ToString (name j) ++ ": ") ++ ToString a0
        | _ :: _ => util_format args
        end in
      let statement0 :=
        {| object_type := JOB_LOG_STORE_NAME;
           job_id := id j;
           worker_id := getWorkerId;
           st_name := name j;
           message := message0;
           metadata := meta |} in
      dao_call "update" (DaoUpdate statement0) ;;
      emit (Sink (LogDebug args)) ;;
      ret (RetVal VUndefined)
  end.

(** The callback of [onStart]. *)
Definition onStart_cb : callback :=
  fun err _ =>
    if isError err then
      [LogError [VStr "JobRunner: Failed to mark job as started %s";
                 stack_of err]]
    else [].

Definition onStart (status : value) : M returned :=
  i <- getId ;;
  j <- get_this ;;
  let job :=
    {| job_where := getIDWhere i;
       job_object_type := JOB_STORE_NAME;
       job_name := name j;
       job_status := js_or status (VStr DEFAULT_START_STATUS);
       job_progress := VNum zero |} in
  dao_call "save" (DaoSave job onStart_cb) ;;
  ret (RetVal VUndefined).

(** The callback of [onUpdate]. *)
Definition onUpdate_cb : callback :=
  fun err _ =>
    if isError err then
      [LogError [VStr "JobRunner: Failed to update job progress - ";
                 stack_of err]]
    else [].

(** [updates['$inc'] = {progress: v}] and [updates['$set'] = {status: v}]. *)
Definition put_inc (v : value) (u : update_doc) : update_doc :=
  {| u_inc := Some v; u_set := u_set u |}.

Definition put_set (d : set_doc) (u : update_doc) : update_doc :=
  {| u_inc := u_inc u; u_set := Some d |}.

Definition empty_update : update_doc := {| u_inc := None; u_set := None |}.

(** [a !== b] on two objects: they are the same object or not. *)
Definition strict_neq_ref (a b : nat) : bool := negb (Nat.eqb a b).

Definition onUpdate (progressIncrement status : value) : M returned :=
  i <- getId ;;
  j <- get_this ;;
  log [VStr "Updating job [%s:%s] by %s percent with status: %s";
       i; name j; progressIncrement; status] ;;
  i <- getId ;;
  let query := getIDWhere i in
  updates_ref <- alloc ;;
  let updates := empty_update in
  let updates :=
    if isFloat progressIncrement true true
    then put_inc progressIncrement updates else updates in
  let updates :=
    if validateNonEmptyStr status true
    then put_set {| set_status := Some status; set_progress := None;
                    set_error := None |} updates
    else updates in
  literal_ref <- alloc ;;
  if strict_neq_ref updates_ref literal_ref then
    dao_call "updateFields"
      (DaoUpdateFields JOB_STORE_NAME query updates onUpdate_cb) ;;
    ret (RetVal VUndefined)
  else ret (RetVal VUndefined).

(** The callback of [onCompleted]. *)
Definition onCompleted_cb : callback :=
  fun err _ =>
    if isError err then
      [LogError [VStr "JobRunner: Failed to update job as completed - %s";
                 stack_of err]]
    else [].

(** The reassignment of the two parameters at the head of [onCompleted]. *)
Definition completed_args (status err : value) : value * value :=
  if isError status then (VStr DEFAULT_ERROR_STATUS, status)
  else if negb (truthy status) then (VStr DEFAULT_DONE_STATUS, err)
  else (status, err).

Definition onCompleted (status err : value) : M returned :=
  let '(status, err) := completed_args status err in
  i <- getId ;;
  j <- get_this ;;
  log [VStr "Setting job [%s:%s] as completed with status: %s";
       i; name j; status] ;;
  i <- getId ;;
  let query := getIDWhere i in
  let sets :=
    {| u_inc := None;
       u_set := Some {| set_status := Some status;
                        set_progress := Some (VNum (Fin 100));
                        set_error :=
                          Some (if truthy err then stack_of err
                                else VUndefined) |} |} in
  dao_call "updateFields"
    (DaoUpdateFields JOB_STORE_NAME query sets onCompleted_cb) ;;
  ret (RetVal VUndefined).

End Methods.

(** ** The persistence layer *)

(** The replies of the DAO reach the callbacks later.  [deliver err res]
    hands the reply [(err, res)] to every callback of a trace and collects
    what the callbacks do. *)
Fixpoint deliver (err res : value) (es : list effect) : list log_call :=
  match es with
  | [] => []
  | DaoSave _ cb :: es' => (cb err res ++ deliver err res es')%list
  | DaoUpdateFields _ _ _ cb :: es' => (cb err res ++ deliver err res es')%list
  | _ :: es' => deliver err res es'
  end.

(** The writes to the collection of job runs that a trace asks for. *)
Fixpoint job_writes (es : list effect) : list effect :=
  match es with
  | [] => []
  | DaoSave job cb :: es' => DaoSave job cb :: job_writes es'
  | DaoUpdateFields coll q u cb :: es' =>
      DaoUpdateFields coll q u cb :: job_writes es'
  | _ :: es' => job_writes es'
  end.

(** The statements that a trace asks to persist and the calls of the logger
    that it makes directly. *)
Fixpoint log_entries (es : list effect) : list statement :=
  match es with
  | [] => []
  | DaoUpdate st :: es' => st :: log_entries es'
  | _ :: es' => log_entries es'
  end.

Fixpoint sink_calls (es : list effect) : list log_call :=
  match es with
  | [] => []
  | Sink c :: es' => c :: sink_calls es'
  | _ :: es' => sink_calls es'
  end.

(** A stored job run record. *)
Record job_record : Type := mkRecord {
  rec_id : value;
  rec_object_type : string;
  rec_name : value;
  rec_status : value;
  rec_progress : value;
  rec_error : value
}.

Definition num_add (x y : number) : number :=
  match x, y with
  | NaN, _ | _, NaN => NaN
  | PosInfinity, NegInfinity | NegInfinity, PosInfinity => NaN
  | PosInfinity, _ | _, PosInfinity => PosInfinity
  | NegInfinity, _ | _, NegInfinity => NegInfinity
  | Fin a, Fin b => Fin (a + b)
  end.

Definition number_eqb (x y : number) : bool :=
  match x, y with
  | PosInfinity, PosInfinity => true
  | NegInfinity, NegInfinity => true
  | Fin a, Fin b => Qeq_bool a b
  | _, _ => false
  end.

Definition error_eqb (a b : error) : bool :=
  String.eqb (err_name a) (err_name b)
  && String.eqb (err_message a) (err_message b)
  && String.eqb (err_stack a) (err_stack b).

(** Equality of two keys. *)
Definition value_eqb (a b : value) : bool :=
  match a, b with
  | VUndefined, VUndefined => true
  | VNull, VNull => true
  | VBool x, VBool y => Bool.eqb x y
  | VNum x, VNum y => number_eqb x y
  | VStr x, VStr y => String.eqb x y
  | VError x, VError y => error_eqb x y
  | _, _ => false
  end.

(** Modelled from the spec: the effect of [$inc: {progress: v}] on a stored
    record, an additive numeric increment.  The persistence engine is not
    part of the file; an increment that is not between two numbers leaves
    the record as it is. *)
Definition apply_inc (v : value) (r : job_record) : job_record :=
  match rec_progress r, v with
  | VNum p, VNum d =>
      {| rec_id := rec_id r; rec_object_type := rec_object_type r;
         rec_name := rec_name r; rec_status := rec_status r;
         rec_progress := VNum (num_add p d); rec_error := rec_error r |}
  | _, _ => r
  end.

Definition overwrite (new : option value) (old : value) : value :=
  match new with
  | Some v => v
  | None => old
  end.

(** Modelled from the spec: the effect of [$set] on a stored record, a
    field overwrite. *)
Definition apply_set (d : set_doc) (r : job_record) : job_record :=
  {| rec_id := rec_id r; rec_object_type := rec_object_type r;
     rec_name := rec_name r;
     rec_status := overwrite (set_status d) (rec_status r);
     rec_progress := overwrite (set_progress d) (rec_progress r);
     rec_error := overwrite (set_error d) (rec_error r) |}.

Definition apply_update (u : update_doc) (r : job_record) : job_record :=
  let r := match u_inc u with Some v => apply_inc v r | None => r end in
  match u_set u with
  | Some d => apply_set d r
  | None => r
  end.

(** Modelled from the spec: the persistence collaborator, seen from the
    record of the job run with key [key]: [save] is an upsert of the whole
    document, [updateFields] changes the record that the key query selects
    (and nothing when there is none), and writes are served in the order
    in which they were issued. *)
Definition persist_one (key : value) (e : effect) (slot : option job_record)
  : option job_record :=
  match e with
  | DaoSave job _ =>
      if String.eqb (job_object_type job) JOB_STORE_NAME
         && value_eqb (where_id (job_where job)) key then
        Some {| rec_id := key; rec_object_type := job_object_type job;
                rec_name := job_name job; rec_status := job_status job;
                rec_progress := job_progress job;
                rec_error := VUndefined |}
      else slot
  | DaoUpdateFields coll q u _ =>
      if String.eqb coll JOB_STORE_NAME && value_eqb (where_id q) key then
        option_map (apply_update u) slot
      else slot
  | _ => slot
  end.

Fixpoint persist (key : value) (es : list effect) (slot : option job_record)
  : option job_record :=
  match es with
  | [] => slot
  | e :: es' => persist key es' (persist_one key e slot)
  end.

(** ** A platform to run the model on *)

Module Sample.

Definition Z_to_string (z : Z) : string :=
  NilZero.string_of_int (Z.to_int z).

Definition digit (z : Z) : string :=
  String (ascii_of_nat (48 + Z.to_nat z)) EmptyString.

(** The digits after the point of [r / d], at most [fuel] of them. *)
Fixpoint fraction (fuel : nat) (r d : Z) : string :=
  match fuel with
  | O => ""
  | S fuel' =>
      if (r =? 0)%Z then ""
      else digit (r * 10 / d) ++ fraction fuel' ((r * 10) mod d) d
  end.

(** The decimal numeral of a number: exact on the integers and on the
    short decimal fractions, which print in JavaScript as they are
    written. *)
Definition number_to_string (n : number) : string :=
  match n with
  | NaN => "NaN"
  | PosInfinity => "Infinity"
  | NegInfinity => "-Infinity"
  | Fin q =>
      let d := Zpos (Qden q) in
      let a := Z.abs (Qnum q) in
      let sign := if (Qnum q <? 0)%Z then "-" else "" in
      if (a mod d =? 0)%Z then sign ++ Z_to_string (a / d)
      else sign ++ Z_to_string (a / d) ++ "." ++ fraction 17 (a mod d) d
  end.

Definition is_digit (c : ascii) : bool :=
  (48 <=? nat_of_ascii c)%nat && (nat_of_ascii c <=? 57)%nat.

Fixpoint digits_value (s : string) (acc : Z) : option Z :=
  match s with
  | EmptyString => Some acc
  | String c s' =>
      if is_digit c
      then digits_value s' (acc * 10 + Z.of_nat (nat_of_ascii c - 48))
      else None
  end.

(** The numbers written as a plain sequence of decimal digits; the empty
    string is zero and every other string is read as NaN. *)
Definition string_to_number (s : string) : number :=
  match digits_value s 0 with
  | Some z => Fin (inject_Z z)
  | None => NaN
  end.

Definition quote : ascii := ascii_of_nat 34.

(** [JSON.stringify] on the values without a quote or a backslash. *)
Definition json (v : value) : string :=
  match v with
  | VUndefined => "undefined"
  | VNull => "null"
  | VBool true => "true"
  | VBool false => "false"
  | VNum (Fin q) => number_to_string (Fin q)
  | VNum _ => "null"
  | VStr s => String quote s ++ String quote EmptyString
  | VError _ => "{}"
  end.

(** [util.inspect] on the same values. *)
Definition inspect (v : value) : string :=
  match v with
  | VUndefined => "undefined"
  | VNull => "null"
  | VBool true => "true"
  | VBool false => "false"
  | VNum n => number_to_string n
  | VStr s => "'" ++ s ++ "'"
  | VError e =>
      "[" ++ error_to_string e ++ "]"
  end.

(** Modelled from the spec: [pb.validation.isFloat], which accepts the
    valid numeric values.  The validation service is not part of the file;
    a value that is not required may also be absent. *)
Definition is_float (v : value) (required strict : bool) : bool :=
  match v with
  | VNum NaN => negb required
  | VNum _ => true
  | VUndefined | VNull | VBool false => negb required
  | VStr s => String.eqb s "" && negb required
  | _ => false
  end.

(** Modelled from the spec: [pb.validation.validateNonEmptyStr], which
    accepts the non-empty strings. *)
Definition non_empty_str (v : value) (required : bool) : bool :=
  match v with
  | VStr s => if String.eqb s "" then negb required else true
  | VUndefined | VNull | VBool false | VNum NaN => negb required
  | VNum (Fin q) => Qeq_bool q 0 && negb required
  | _ => false
  end.

(** The identifiers of the generator: a counter, written in decimal after
    a fixed prefix. *)
Definition unique_id (n : nat) : string :=
  "id" ++ Z_to_string (Z.of_nat n).

Definition platform : Platform := {|
  NumberToString := number_to_string;
  StringToNumber := string_to_number;
  JSON_stringify := json;
  util_inspect := inspect;
  isFloat := is_float;
  validateNonEmptyStr := non_empty_str;
  getWorkerId := VStr "master";
  uniqueId := unique_id
|}.

(** A job after [new JobRunner().init("reindex", "42")]. *)
Definition job : JobRunner :=
  {| dao := Some new_DAO; id := VStr "42"; name := VStr "reindex";
     chunkOfWorkPercentage := VNum one |}.

Definition start (j : JobRunner) : world :=
  {| this := j; uid_calls := 0; next_ref := 0 |}.

End Sample.

(** ** The vocabulary of the properties *)

Section Vocabulary.

Context {P : Platform}.

(** A job is initialized when it holds a DAO and an identifier that is not
    empty; this is what [init] establishes. *)
Definition initialized (j : JobRunner) : Prop :=
  dao j <> None /\ truthy (id j) = true.

(** The text that [log] persists. *)
Definition log_message (j : JobRunner) (a0 : value) (rest : list value)
  : string :=
  match rest with
  | [] => (ToString (name j) ++ ": ") ++ ToString a0
  | _ :: _ =>
      util_format (VStr ((ToString (name j) ++ ": ") ++ ToString a0) :: rest)
  end.

Definition log_statement (j : JobRunner) (a0 : value) (rest : list value)
  : statement :=
  {| object_type := JOB_LOG_STORE_NAME;
     job_id := id j;
     worker_id := getWorkerId;
     st_name := name j;
     message := log_message j a0 rest;
     metadata := [] |}.

Definition log_effects (j : JobRunner) (a0 : value) (rest : list value)
  : list effect :=
  [DaoUpdate (log_statement j a0 rest);
   Sink (LogDebug (VStr ((ToString (name j) ++ ": ") ++ ToString a0) :: rest))].

(** The object [updates] when [onUpdate] reaches its test. *)
Definition updates_of (progressIncrement status : value) : update_doc :=
  let updates := empty_update in
  let updates :=
    if isFloat progressIncrement true true
    then put_inc progressIncrement updates else updates in
  if validateNonEmptyStr status true
  then put_set {| set_status := Some status; set_progress := None;
                  set_error := None |} updates
  else updates.

Definition update_pattern : string :=
  "Updating job [%s:%s] by %s percent with status: %s".

Definition completed_pattern : string :=
  "Setting job [%s:%s] as completed with status: %s".

(** The object [sets] of [onCompleted]. *)
Definition sets_of (status err : value) : update_doc :=
  {| u_inc := None;
     u_set := Some {| set_status := Some (fst (completed_args status err));
                      set_progress := Some (VNum (Fin 100));
                      set_error :=
                        Some (if truthy (snd (completed_args status err))
                              then stack_of (snd (completed_args status err))
                              else VUndefined) |} |}.

(** A parameter that holds a non-empty string, and one that is absent or
    holds the empty string. *)
Definition non_empty (v : value) : Prop := exists s, v = VStr s /\ s <> "".

Definition absent_or_empty (v : value) : Prop :=
  v = VUndefined \/ v = VStr "".

(** A number within the interval (0, 1]. *)
Definition num_in_unit_interval (n : number) : bool :=
  match n with
  | Fin q => negb (Qle_bool q 0) && Qle_bool q 1
  | _ => false
  end.

(** A value that is a number within (0, 1]; a value that is not a number is
    outside. *)
Definition in_unit_interval (v : value) : bool :=
  match v with
  | VNum n => num_in_unit_interval n
  | _ => false
  end.

(** A text without the character [%]. *)
Fixpoint no_percent (s : string) : bool :=
  match s with
  | EmptyString => true
  | String c s' => negb (Ascii.eqb c "%") && no_percent s'
  end.

(** The error of a completion: the first argument when it is an error, and
    otherwise the second one when that is an error. *)
Definition error_present (status err : value) : option error :=
  match status, err with
  | VError e, _ => Some e
  | _, VError e => Some e
  | _, _ => None
  end.

Definition error_detail (status err : value) : value :=
  match error_present status err with
  | Some e => VStr (err_stack e)
  | None => VUndefined
  end.


End Vocabulary.

(** ** Sample data *)

(** A job whose name holds a placeholder. *)
Definition sale_job : JobRunner :=
  {| dao := Some new_DAO; id := VStr "42"; name := VStr "50%sale";
     chunkOfWorkPercentage := VNum one |}.

(** A stored record of the sample job, at progress 40. *)
Definition sample_record : job_record :=
  {| rec_id := VStr "42"; rec_object_type := "job_run";
     rec_name := VStr "reindex"; rec_status := VStr "RUNNING";
     rec_progress := VNum (Fin 40); rec_error := VUndefined |}.

Definition sample_failure : error :=
  {| err_name := "Error"; err_message := "connection lost";
     err_stack := "Error: connection lost at Db.update" |}.

(** ** The SlideShare media renderer

    A shallow embedding of
    [include/service/media/renderers/slideshare_media_renderer.js].  The
    renderer works on JSON data and on callbacks that may throw, so it has
    values and a result type of its own. *)

Module SlideShareMediaRenderer.

(** The values of the renderer: what [JSON.parse] returns, [undefined] and
    [Error] objects.  An object is the list of its own properties; the
    first binding of a key is its value. *)
#[local] Unset Elimination Schemes.

Inductive jv : Type :=
  | Undefined
  | Null
  | Bool (b : bool)
  | Num (n : number)
  | Str (s : string)
  | Arr (items : list jv)
  | Obj (fields : list (string * jv))
  | Err (e : error).

#[local] Set Elimination Schemes.

(** A call either returns or throws a value. *)
Inductive outcome (A : Type) : Type :=
  | Ok (a : A)
  | Thrown (x : jv).

Arguments Ok {A} a.
Arguments Thrown {A} x.

(** What can be observed of the renderer: the request it sends and the
    calls of the callback it was given. *)
Inductive event : Type :=
  | HttpsRequest (host path : string)
  | Called (err res : jv).

(** The result of running a piece of code: the events in order and the way
    it ended. *)
Definition R : Type := list event * outcome unit.

(** A callback [function(err, result)]. *)
Definition callback : Type := jv -> jv -> R.

(** [a; b]: [b] runs when [a] has returned. *)
Definition seq (a : R) (b : R) : R :=
  match a with
  | (t, Ok _) => ((t ++ fst b)%list, snd b)
  | (t, Thrown x) => (t, Thrown x)
  end.

(** [try { body } catch (err) { handler(err) }]. *)
Definition try_catch (body : R) (handler : jv -> R) : R :=
  match body with
  | (t, Ok _) => (t, Ok tt)
  | (t, Thrown x) => ((t ++ fst (handler x))%list, snd (handler x))
  end.

(** A callback of a caller that is watched: each call is recorded, and
    [behaviour] says whether the call returns or throws. *)
Definition observe (behaviour : jv -> jv -> outcome unit) : callback :=
  fun err res => ([Called err res], behaviour err res).

(** The object that [url.parse(urlStr, true, true)] returns, with the
    properties the renderer reads; [None] is [null]. *)
Record url_object : Type := mkUrl {
  host : option string;
  pathname : option string;
  query : jv
}.

(** What [JSON.parse] does: it returns a value or throws a SyntaxError. *)
Inductive parsed : Type :=
  | Parsed (data : jv)
  | SyntaxError (e : error).

(** Functions of the runtime and of the application that the file calls
    and does not define. *)
Class Node : Type := {
  (** [url.parse(urlStr, true, true)]. *)
  url_parse : string -> url_object;
  encodeURIComponent : string -> string;
  JSON_parse : string -> parsed;
  (** [BaseMediaRenderer.renderIFrameEmbed(src, attrs, style)]. *)
  renderIFrameEmbed : string -> jv -> jv -> jv;
  (** The TypeError of reading the property [k] of [v], which is [null] or
      [undefined]. *)
  null_property_error : jv -> string -> error;
  (** The TypeError of calling the variable [f], which is not a function. *)
  not_a_function_error : string -> error;
  (** The ReferenceError of reading the variable [x], which is not
      declared. *)
  reference_error : string -> error;
  (** The TypeError of converting to a string an object whose [toString]
      is not a function. *)
  cannot_convert_error : error
}.

Definition TYPE : string := "slideshare".

Section Renderer.

Context {P : Platform} {N : Node}.

Definition getName : jv := Str "SlideShareMediaRenderer".

Definition getIcon (type : jv) : jv := Str "list-alt".

(** [util.isError]. *)
Definition isError (v : jv) : bool :=
  match v with
  | Err _ => true
  | _ => false
  end.

Fixpoint lookup (k : string) (fields : list (string * jv)) : option jv :=
  match fields with
  | [] => None
  | (k', v) :: fields' => if String.eqb k k' then Some v else lookup k fields'
  end.

(** [v.k], for the property names that the renderer reads ([slideshow_id],
    [thumbnail], [location], [attrs], [style]): none of them is a property
    of a primitive, of an array or of [Object.prototype]. *)
Definition get (v : jv) (k : string) : outcome jv :=
  match v with
  | Undefined | Null => Thrown (Err (null_property_error v k))
  | Obj fields =>
      match lookup k fields with
      | Some x => Ok x
      | None => Ok Undefined
      end
  | _ => Ok Undefined
  end.

(** [s.indexOf(sub)]. *)
Definition indexOf (s sub : string) : Z :=
  match String.index 0 sub s with
  | Some n => Z.of_nat n
  | None => (-1)%Z
  end.

(** [ToString], which fails on an object whose own [toString] property
    hides the inherited function ([None] is that failure).  The elements
    [null] and [undefined] of an array are joined as empty strings. *)
Fixpoint to_string (v : jv) : option string :=
  match v with
  | Undefined => Some "undefined"
  | Null => Some "null"
  | Bool true => Some "true"
  | Bool false => Some "false"
  | Num n => Some (NumberToString n)
  | Str s => Some s
  | Arr items =>
      (fix join (l : list jv) : option string :=
         match l with
         | [] => Some ""
         | x :: l' =>
             let head :=
               match x with
               | Undefined | Null => Some ""
               | _ => to_string x
               end in
             match head, l' with
             | Some h, [] => Some h
             | Some h, _ :: _ =>
                 match join l' with
                 | Some t => Some (h ++ "," ++ t)
                 | None => None
                 end
             | None, _ => None
             end
         end) items
  | Obj fields =>
      match lookup "toString" fields with
      | Some _ => None
      | None => Some "[object Object]"
      end
  | Err e => Some (error_to_string e)
  end.

(** ['...' + v]. *)
Definition concat_to (prefix : string) (v : jv) : outcome string :=
  match to_string v with
  | Some s => Ok (prefix ++ s)
  | None => Thrown (Err cannot_convert_error)
  end.

(** The argument of [isFullSite]: a URL string or a URL object. *)
Inductive url_arg : Type :=
  | UrlString (s : string)
  | UrlObject (u : url_object).

(** [s.indexOf(sub) >= 0] on a property that may be [null]. *)
Definition contains (s : option string) (sub : string) : outcome bool :=
  match s with
  | Some s' => Ok (0 <=? indexOf s' sub)%Z
  | None => Thrown (Err (null_property_error Null "indexOf"))
  end.

Definition isFullSite (parsedUrl : url_arg) : outcome bool :=
  match parsedUrl with
  | UrlString _ => Thrown (Err (reference_error "urlStr"))
  | UrlObject u =>
      match contains (host u) "slideshare.com" with
      | Thrown x => Thrown x
      | Ok true => contains (pathname u) "/"
      | Ok false =>
          match contains (host u) "slideshare.net" with
          | Thrown x => Thrown x
          | Ok true => contains (pathname u) "/"
          | Ok false => Ok false
          end
      end
  end.

Definition isSupported (urlStr : string) : outcome bool :=
  let details := url_parse urlStr in
  isFullSite (UrlObject details).

Definition getType (urlStr : string) : outcome jv :=
  match isSupported urlStr with
  | Ok true => Ok (Str TYPE)
  | Ok false => Ok Null
  | Thrown x => Thrown x
  end.

Definition getEmbedUrl (mediaId : jv) : outcome string :=
  concat_to "//www.slideshare.net/slideshow/embed_code/" mediaId.

Definition getNativeUrl (media : jv) : outcome string :=
  match get media "location" with
  | Ok location =>
      concat_to "http://slideshare.net/slideshow/embed_code/" location
  | Thrown x => Thrown x
  end.

(** The second argument of [render] and [renderByUrl]: a function, or any
    other value. *)
Inductive options_arg : Type :=
  | Fn (f : callback)
  | Val (v : jv).

(** [cb(err, res)], where [cb] may not be a function ([None]). *)
Definition call (cb : option callback) (err res : jv) : R :=
  match cb with
  | Some f => f err res
  | None => ([], Thrown (Err (not_a_function_error "cb")))
  end.

Definition render (media : jv) (options : options_arg) (cb : option callback)
  : R :=
  let '(options, cb) :=
    match options with
    | Fn f => (Obj [], Some f)
    | Val v => (v, cb)
    end in
  match get media "location" with
  | Thrown x => ([], Thrown x)
  | Ok location =>
      match getEmbedUrl location with
      | Thrown x => ([], Thrown x)
      | Ok embedUrl =>
          match get options "attrs" with
          | Thrown x => ([], Thrown x)
          | Ok attrs =>
              match get options "style" with
              | Thrown x => ([], Thrown x)
              | Ok style =>
                  call cb Null (renderIFrameEmbed embedUrl attrs style)
              end
          end
      end
  end.

(** The events of a response, as its listeners see them. *)
Inductive response_event : Type :=
  | Data (chunk : string)
  | End
  | Error (e : error).

(** What a request leads to: the request that is sent, and what the
    listeners do with the events of the response.  A request that gets no
    response reaches none of the listeners and is outside the model. *)
Definition exchange : Type :=
  (string * string) * (list response_event -> R).

(** The listener of [end] in [getDetails]. *)
Definition on_end (cb : callback) (str : string) : R :=
  try_catch
    (match JSON_parse str with
     | Parsed data => cb Null data
     | SyntaxError e => ([], Thrown (Err e))
     end)
    (fun err => cb err Undefined).

(** The listeners of [getDetails] at work: [str] is the text received so
    far and [armed] says whether the listener of [error], which is
    registered with [once], is still there.  An exception in a listener
    ends the run, and so does an [error] event without a listener. *)
Fixpoint listen (cb : callback) (str : string) (armed : bool)
    (events : list response_event) : R :=
  match events with
  | [] => ([], Ok tt)
  | Data chunk :: events' => listen cb (str ++ chunk) armed events'
  | End :: events' => seq (on_end cb str) (listen cb str armed events')
  | Error e :: events' =>
      if armed
      then seq (cb (Err e) Undefined) (listen cb str false events')
      else ([], Thrown (Err e))
  end.

Definition getDetails (urlStr : string) (cb : callback) : exchange :=
  let options :=
    ("www.slideshare.net",
     "/api/oembed/2?url=" ++ encodeURIComponent urlStr
     ++ "&format=jsonp&callback=?") in
  (options, listen cb "" true).

(** The callback that [getMediaId] and [getThumbnail] give to
    [getDetails], for the property [k] of the details. *)
Definition pick (k : string) (cb : callback) : callback :=
  fun err details =>
    if isError err then cb err Undefined
    else
      match get details k with
      | Ok v => cb Null v
      | Thrown x => ([], Thrown x)
      end.

Definition getMediaId (urlStr : string) (cb : callback) : exchange :=
  getDetails urlStr (pick "slideshow_id" cb).

Definition getThumbnail (urlStr : string) (cb : callback) : exchange :=
  getDetails urlStr (pick "thumbnail" cb).

Definition getMeta (urlStr : string) (isFile : jv) (cb : callback) : R :=
  let details := url_parse urlStr in
  let meta := query details in
  cb Null meta.

Definition renderByUrl (urlStr : string) (options : options_arg)
    (cb : option callback) : exchange :=
  getMediaId urlStr
    (fun err mediaId =>
       if isError err then call cb err Undefined
       else render (Obj [("location", mediaId)]) options cb).

End Renderer.

(** *** The vocabulary of its properties *)

(** [sub] occurs somewhere in [s]. *)
Definition occurs (sub s : string) : Prop :=
  exists a b, s = a ++ sub ++ b.

(** A host and a path that the renderer takes for SlideShare's. *)
Definition full_site (h p : string) : Prop :=
  (occurs "slideshare.com" h \/ occurs "slideshare.net" h) /\ occurs "/" p.

(** The text of a response: its chunks, one after the other. *)
Fixpoint join_chunks (chunks : list string) : string :=
  match chunks with
  | [] => ""
  | c :: chunks' => c ++ join_chunks chunks'
  end.

(** A response that arrives in [chunks] and ends, and one that fails after
    them. *)
Definition complete (chunks : list string) : list response_event :=
  (map Data chunks ++ [End])%list.

Definition broken (chunks : list string) (e : error) : list response_event :=
  (map Data chunks ++ [Error e])%list.

(** [v.k] when [v] is an object: the value of the property, or
    [undefined]. *)
Definition field (k : string) (fields : list (string * jv)) : jv :=
  match lookup k fields with
  | Some x => x
  | None => Undefined
  end.

(** *** A node to run the renderer on *)

Definition sample_url : string := "http://www.slideshare.net/acme/deck".

(** A parser that knows one URL; any other string is read as a path. *)
Definition sample_url_parse (s : string) : url_object :=
  if String.eqb s sample_url
  then {| host := Some "www.slideshare.net"; pathname := Some "/acme/deck";
          query := Obj [] |}
  else {| host := None; pathname := Some s; query := Obj [] |}.

Definition sample_details : list (string * jv) :=
  [("slideshow_id", Num (Fin 42)); ("thumbnail", Str "//cdn.example/42.jpg")].

(** A parser of JSON that knows two texts. *)
Definition sample_JSON_parse (s : string) : parsed :=
  if String.eqb s "{slideshow 42}" then Parsed (Obj sample_details)
  else if String.eqb s "null" then Parsed Null
  else SyntaxError {| err_name := "SyntaxError";
                      err_message := "Unexpected token";
                      err_stack := "SyntaxError: Unexpected token" |}.

Definition sample_type_error (what : string) : error :=
  {| err_name := "TypeError"; err_message := what;
     err_stack := "TypeError: " ++ what |}.

Definition sample_node : Node := {|
  url_parse := sample_url_parse;
  encodeURIComponent := fun s => s;
  JSON_parse := sample_JSON_parse;
  renderIFrameEmbed := fun src _ _ => Str ("<iframe src=" ++ src ++ ">");
  null_property_error := fun _ k => sample_type_error ("Cannot read " ++ k);
  not_a_function_error := fun f => sample_type_error (f ++ " is not a function");
  reference_error := fun x =>
    {| err_name := "ReferenceError"; err_message := x ++ " is not defined";
       err_stack := "ReferenceError: " ++ x ++ " is not defined" |};
  cannot_convert_error := sample_type_error "Cannot convert object"
|}.

(** A callback that always returns. *)
Definition quiet : jv -> jv -> outcome unit := fun _ _ => Ok tt.

(** A callback that throws when it is given data. *)
Definition fussy : jv -> jv -> outcome unit :=
  fun err _ =>
    match err with
    | Null => Thrown (Str "cannot use the data")
    | _ => Ok tt
    end.

(** The response of the sample, in two chunks. *)
Definition sample_chunks : list string := ["{slideshow"; " 42}"].

Definition network_error : error :=
  {| err_name := "Error"; err_message := "socket hang up";
     err_stack := "Error: socket hang up" |}.

End SlideShareMediaRenderer.

(** ** Properties *)

(** *** Values *)

Lemma truthy_VStr (s : string) : truthy (VStr s) = true <-> s <> "".
Proof.
  simpl. destruct (String.eqb_spec s ""); simpl; split; congruence.
Qed.

Lemma value_eqb_refl (v : value) : truthy v = true -> value_eqb v v = true.
Proof.
  destruct v as [ | | b | n | s | e]; simpl; try congruence; intros H.
  - destruct b; reflexivity.
  - destruct n; simpl; try congruence. apply Qeq_bool_refl.
  - apply String.eqb_refl.
  - unfold error_eqb. now rewrite !String.eqb_refl.
Qed.

Lemma isError_truthy (v : value) : isError v = true -> truthy v = true.
Proof. destruct v; simpl; congruence. Qed.

(** *** Running the monad *)

Lemma bind_result {A B} (m : M A) (k : A -> M B) (w : world) (a : A) :
  result (m w) = Normal a ->
  result (bind m k w) = result (k a (after (m w))).
Proof. intros H. unfold bind. now rewrite H. Qed.

Lemma bind_effects {A B} (m : M A) (k : A -> M B) (w : world) (a : A) :
  result (m w) = Normal a ->
  effects (bind m k w) = (effects (m w) ++ effects (k a (after (m w))))%list.
Proof. intros H. unfold bind. now rewrite H. Qed.


Section Runs.

Context {P : Platform}.

Lemma dao_call_run (m : string) (e : effect) (w : world) :
  dao (this w) <> None ->
  dao_call m e w = mkOutcome w [e] (Normal tt).
Proof.
  intros H. destruct w as [[d i n c] u r]; simpl in H.
  destruct d; [reflexivity | congruence].
Qed.

Lemma dao_call_null (m : string) (e : effect) (w : world) :
  dao (this w) = None ->
  dao_call m e w = mkOutcome w [] (Throw (TypeErrorOnNull m)).
Proof.
  intros H. destruct w as [[d i n c] u r]; simpl in H.
  subst d. reflexivity.
Qed.

Lemma log_run (a0 : value) (rest : list value) (w : world) :
  dao (this w) <> None ->
  log (a0 :: rest) w =
  mkOutcome w (log_effects (this w) a0 rest) (Normal (RetVal VUndefined)).
Proof.
  intros H. destruct w as [[d i n c] u r]; simpl in H.
  destruct d; [ | congruence]. destruct rest; reflexivity.
Qed.

Lemma onStart_run (status : value) (w : world) :
  dao (this w) <> None ->
  onStart status w =
  mkOutcome w
    [DaoSave {| job_where := getIDWhere (id (this w));
                job_object_type := JOB_STORE_NAME;
                job_name := name (this w);
                job_status := js_or status (VStr DEFAULT_START_STATUS);
                job_progress := VNum zero |} onStart_cb]
    (Normal (RetVal VUndefined)).
Proof.
  intros H. destruct w as [[d i n c] u r]; simpl in H.
  destruct d; [reflexivity | congruence].
Qed.

(** A new object is not any of the objects allocated before it, so the
    test [updates !== {}] never fails. *)
Lemma fresh_object_differs (r : nat) : strict_neq_ref r (S r) = true.
Proof.
  unfold strict_neq_ref. apply negb_true_iff. apply Nat.eqb_neq. lia.
Qed.

Lemma onUpdate_run (progressIncrement status : value) (w : world) :
  dao (this w) <> None ->
  onUpdate progressIncrement status w =
  mkOutcome
    {| this := this w; uid_calls := uid_calls w;
       next_ref := S (S (next_ref w)) |}
    (log_effects (this w) (VStr update_pattern)
       [id (this w); name (this w); progressIncrement; status]
     ++ [DaoUpdateFields JOB_STORE_NAME (getIDWhere (id (this w)))
           (updates_of progressIncrement status) onUpdate_cb])%list
    (Normal (RetVal VUndefined)).
Proof.
  intros H. destruct w as [[d i n c] u r]; simpl in H.
  destruct d; [ | congruence].
  unfold onUpdate, bind. simpl.
  rewrite (fresh_object_differs r). reflexivity.
Qed.

Lemma onCompleted_run (status err : value) (w : world) :
  dao (this w) <> None ->
  onCompleted status err w =
  mkOutcome w
    (log_effects (this w) (VStr completed_pattern)
       [id (this w); name (this w); fst (completed_args status err)]
     ++ [DaoUpdateFields JOB_STORE_NAME (getIDWhere (id (this w)))
           (sets_of status err) onCompleted_cb])%list
    (Normal (RetVal VUndefined)).
Proof.
  intros H. destruct w as [[d i n c] u r]; simpl in H.
  destruct d; [ | congruence].
  unfold onCompleted, sets_of.
  destruct (completed_args status err) as [st er]. reflexivity.
Qed.

End Runs.

(** *** Construction and initialization *)

Lemma non_empty_truthy (v : value) : non_empty v -> truthy v = true.
Proof. intros [s [-> H]]. now apply truthy_VStr. Qed.

Lemma absent_or_empty_falsy (v : value) :
  absent_or_empty v -> truthy v = false.
Proof. intros [-> | ->]; reflexivity. Qed.

Section Initialization.

Context {P : Platform}.

(** C9: a newly constructed JobRunner, before any call to
    setChunkOfWorkPercentage, has getChunkOfWorkPercentage() equal to 1. *)
Theorem new_JobRunner_chunk_is_one (u r : nat) :
  result (getChunkOfWorkPercentage
            {| this := new_JobRunner; uid_calls := u; next_ref := r |})
  = Normal (VNum (Fin 1)).
Proof. reflexivity. Qed.

Lemma init_run (name0 jobId : value) (w : world) :
  init name0 jobId w =
  let i := if truthy jobId then jobId else VStr (uniqueId (uid_calls w)) in
  mkOutcome
    {| this := {| dao := Some new_DAO; id := i; name := js_or name0 i;
                  chunkOfWorkPercentage := chunkOfWorkPercentage (this w) |};
       uid_calls := if truthy jobId then uid_calls w else S (uid_calls w);
       next_ref := next_ref w |}
    [] (Normal RetThis).
Proof.
  destruct w as [[d i n c] u r]. unfold init, bind. simpl.
  destruct (truthy jobId); reflexivity.
Qed.

(** [init] establishes [initialized], provided the generator never hands
    out the empty string. *)
Lemma init_initialized (name0 jobId : value) (w : world) :
  (forall n, uniqueId n <> "") ->
  initialized (this (after (init name0 jobId w))).
Proof.
  intros Hgen. rewrite init_run. simpl. split; [discriminate | ].
  destruct (truthy jobId) eqn:E; [exact E | ].
  apply truthy_VStr, Hgen.
Qed.

(** C7: after init(name, jobId), getId() returns jobId when it is supplied
    and non-empty, and otherwise an identifier that the generator has just
    produced, which is not empty; the name is the supplied name, or the id
    when the name is empty; init returns the instance itself. *)
Theorem init_sets_id_and_name (name0 jobId : value) (w : world) :
  (forall n, uniqueId n <> "") ->
  let o := init name0 jobId w in
  result o = Normal RetThis
  /\ (non_empty jobId -> result (getId (after o)) = Normal jobId)
  /\ (absent_or_empty jobId ->
      result (getId (after o)) = Normal (VStr (uniqueId (uid_calls w)))
      /\ uniqueId (uid_calls w) <> ""
      /\ uid_calls (after o) = S (uid_calls w))
  /\ (non_empty name0 -> name (this (after o)) = name0)
  /\ (absent_or_empty name0 ->
      name (this (after o)) = id (this (after o))).
Proof.
  intros Hgen o. subst o. rewrite init_run. simpl.
  split; [reflexivity | ].
  split.
  { intros H. apply non_empty_truthy in H. now rewrite H. }
  split.
  { intros H. apply absent_or_empty_falsy in H. rewrite H.
    repeat split. apply Hgen. }
  split.
  { intros H. apply non_empty_truthy in H. unfold js_or. now rewrite H. }
  intros H. apply absent_or_empty_falsy in H. unfold js_or. now rewrite H.
Qed.

End Initialization.

(** *** The work-weight *)

Section WorkWeight.

Context {P : Platform}.

(** The test of [setChunkOfWorkPercentage] fails exactly on the values whose
    number is within (0, 1]. *)
Lemma chunk_test (n : number) :
  num_is_nan n || num_le n zero || num_gt n one
  = negb (num_in_unit_interval n).
Proof.
  destruct n as [ | | | q]; try reflexivity.
  simpl. unfold num_le, num_gt, zero, one. simpl.
  rewrite negb_andb, !negb_involutive.
  destruct (Qle_bool q 0), (Qle_bool q 1); reflexivity.
Qed.

Lemma setChunkOfWorkPercentage_run (chunk : value) (w : world) :
  setChunkOfWorkPercentage chunk w =
  if num_in_unit_interval (ToNumber chunk)
  then mkOutcome
         {| this := {| dao := dao (this w); id := id (this w);
                       name := name (this w);
                       chunkOfWorkPercentage := chunk |};
            uid_calls := uid_calls w; next_ref := next_ref w |}
         [] (Normal RetThis)
  else mkOutcome w [] (Throw (ErrorExn chunk_message)).
Proof.
  unfold setChunkOfWorkPercentage, isNaN. rewrite chunk_test.
  destruct (num_in_unit_interval (ToNumber chunk)); reflexivity.
Qed.

(** C4, as amended: for every value whose number (the value itself when it
    is a number, its numeric conversion otherwise) is NaN or lies outside
    (0, 1], setChunkOfWorkPercentage throws its error and leaves the
    instance, and so the stored chunkOfWorkPercentage, as it was; this
    covers 0, the negative numbers and the numbers above 1. *)
Theorem setChunkOfWorkPercentage_rejects (chunk : value) (w : world) :
  num_in_unit_interval (ToNumber chunk) = false ->
  let o := setChunkOfWorkPercentage chunk w in
  result o = Throw (ErrorExn chunk_message)
  /\ after o = w
  /\ result (getChunkOfWorkPercentage (after o))
     = result (getChunkOfWorkPercentage w).
Proof.
  intros H o. subst o. rewrite setChunkOfWorkPercentage_run, H. simpl.
  repeat split.
Qed.

(** A value whose number is within (0, 1] is stored as it is given. *)
Lemma setChunkOfWorkPercentage_accepts (chunk : value) (w : world) :
  num_in_unit_interval (ToNumber chunk) = true ->
  let o := setChunkOfWorkPercentage chunk w in
  result o = Normal RetThis
  /\ result (getChunkOfWorkPercentage (after o)) = Normal chunk.
Proof.
  intros H o. subst o. rewrite setChunkOfWorkPercentage_run, H. simpl.
  split; reflexivity.
Qed.

End WorkWeight.

(** *** Logging *)

Lemma string_app_assoc (a b c : string) : (a ++ b) ++ c = a ++ (b ++ c).
Proof. induction a as [ | x a IH]; simpl; [reflexivity | now rewrite IH]. Qed.

Lemma no_percent_app (a b : string) :
  no_percent (a ++ b) = no_percent a && no_percent b.
Proof.
  induction a as [ | x a IH]; simpl; [reflexivity | ].
  rewrite IH. apply andb_assoc.
Qed.

Section Logging.

Context {P : Platform}.

(** A prefix without [%] goes through the replacement of the placeholders
    unchanged and consumes no argument. *)
Lemma format_scan_prefix (p f : string) (args : list value) :
  no_percent p = true ->
  format_scan (p ++ f) args =
  (p ++ fst (format_scan f args), snd (format_scan f args)).
Proof.
  induction p as [ | c p IH]; simpl; intros H.
  - now destruct (format_scan f args).
  - apply andb_true_iff in H. destruct H as [Hc Hp].
    rewrite Hc, (IH Hp). reflexivity.
Qed.

Lemma util_format_prefix (p f : string) (rest : list value) :
  no_percent p = true ->
  util_format (VStr (p ++ f) :: rest) = p ++ util_format (VStr f :: rest).
Proof.
  intros H. unfold util_format. rewrite (format_scan_prefix p f rest H).
  destruct (format_scan f rest) as [s extra]. simpl.
  apply string_app_assoc.
Qed.

(** C10: log() with no argument does nothing: no Job Log Entry is persisted,
    nothing is written to the diagnostic sink, and the instance is left as
    it was. *)
Theorem log_without_arguments (w : world) :
  effects (log [] w) = []
  /\ log_entries (effects (log [] w)) = []
  /\ sink_calls (effects (log [] w)) = []
  /\ after (log [] w) = w
  /\ result (log [] w) = Normal (RetVal VUndefined).
Proof. repeat split. Qed.

(** C8, as amended: on an initialized job, log(pattern, v1, ..., vn) asks
    the DAO to persist one Job Log Entry and then writes to the diagnostic
    sink, at debug severity, the pattern prefixed with the job's name and the
    separator, followed by v1, ..., vn.  With no further argument the
    message of the entry is the prefixed pattern as it is; with n >= 1 and
    a name without the character %, it is the name, the separator and the
    printf-style formatting of the pattern with v1, ..., vn. *)
Theorem log_persists_prefixed_message
    (pattern : string) (vs : list value) (w : world) :
  initialized (this w) ->
  let j := this w in
  let prefix := ToString (name j) ++ ": " in
  let o := log (VStr pattern :: vs) w in
  result o = Normal (RetVal VUndefined)
  /\ exists m,
       effects o =
       [DaoUpdate {| object_type := "job_log"; job_id := id j;
                     worker_id := getWorkerId; st_name := name j;
                     message := m; metadata := [] |};
        Sink (LogDebug (VStr (prefix ++ pattern) :: vs))]
       /\ (vs = [] -> m = prefix ++ pattern)
       /\ (vs <> [] -> no_percent (ToString (name j)) = true ->
           m = prefix ++ util_format (VStr pattern :: vs)).
Proof.
  intros [Hdao _] j prefix o. subst o.
  rewrite (log_run _ _ _ Hdao). simpl. split; [reflexivity | ].
  exists (log_message (this w) (VStr pattern) vs).
  split; [reflexivity | ]. split.
  - intros ->. reflexivity.
  - intros Hvs Hname. destruct vs as [ | v vs]; [congruence | ].
    unfold log_message. simpl ToString. apply util_format_prefix.
    subst prefix. rewrite no_percent_app, Hname. reflexivity.
Qed.

End Logging.

(** *** The lifecycle *)

Lemma persist_app (key : value) (es es' : list effect)
    (slot : option job_record) :
  persist key (es ++ es')%list slot = persist key es' (persist key es slot).
Proof.
  revert slot. induction es as [ | e es IH]; simpl; intros slot.
  - reflexivity.
  - apply IH.
Qed.

Section Lifecycle.

Context {P : Platform}.

(** What the entries of the log do to the record of the job run:
    nothing. *)
Lemma persist_log_effects (key : value) (j : JobRunner) (a0 : value)
    (rest : list value) (slot : option job_record) :
  persist key (log_effects j a0 rest) slot = slot.
Proof. reflexivity. Qed.

Lemma persist_updateFields (key : value) (u : update_doc) (cb : callback)
    (r : job_record) :
  truthy key = true ->
  persist key [DaoUpdateFields JOB_STORE_NAME (getIDWhere key) u cb] (Some r)
  = Some (apply_update u r).
Proof.
  intros H. simpl. now rewrite (value_eqb_refl key H).
Qed.

(** C6: on an initialized job, onStart() without a status asks the DAO to
    save a job run record keyed by the job's id, with the job's name, the
    status RUNNING and the progress 0; whatever was stored under that id,
    the stored record is then this one. *)
Theorem onStart_persists_running (w : world) (slot : option job_record) :
  initialized (this w) ->
  let j := this w in
  let o := onStart VUndefined w in
  result o = Normal (RetVal VUndefined)
  /\ effects o =
     [DaoSave {| job_where := getIDWhere (id j);
                 job_object_type := "job_run";
                 job_name := name j;
                 job_status := VStr "RUNNING";
                 job_progress := VNum (Fin 0) |} onStart_cb]
  /\ persist (id j) (effects o) slot =
     Some {| rec_id := id j; rec_object_type := "job_run";
             rec_name := name j; rec_status := VStr "RUNNING";
             rec_progress := VNum (Fin 0); rec_error := VUndefined |}.
Proof.
  intros [Hdao Hid] j o. subst o.
  rewrite (onStart_run _ _ Hdao). simpl.
  repeat split. fold j. now rewrite (value_eqb_refl (id j) Hid).
Qed.

Lemma completed_args_snd (status err : value) :
  snd (completed_args status err) = if isError status then status else err.
Proof.
  unfold completed_args. destruct (isError status); [reflexivity | ].
  destruct (negb (truthy status)); reflexivity.
Qed.

Lemma stack_if_truthy (v : value) :
  (if truthy v then stack_of v else VUndefined) = stack_of v.
Proof.
  destruct (truthy v) eqn:E; [reflexivity | ].
  destruct v; simpl in *; congruence.
Qed.

Lemma completed_error (status err : value) :
  (if truthy (snd (completed_args status err))
   then stack_of (snd (completed_args status err)) else VUndefined)
  = error_detail status err.
Proof.
  rewrite stack_if_truthy, completed_args_snd.
  destruct status; destruct err; reflexivity.
Qed.

(** C2: on an initialized job, onCompleted(status, err) issues one update of
    the job run record.  Its status is ERRORED when the first argument is an
    error, COMPLETED when the first argument is falsy, and the first
    argument itself when that is a non-empty string, whatever err is; its
    progress is 100; its error is the stack of the error when there is
    one, and undefined otherwise.  The stored record takes these three
    values. *)
Theorem onCompleted_persists_outcome
    (status err : value) (w : world) (r : job_record) :
  initialized (this w) ->
  let j := this w in
  let o := onCompleted status err w in
  result o = Normal (RetVal VUndefined)
  /\ exists st,
       job_writes (effects o) =
       [DaoUpdateFields "job_run" (getIDWhere (id j))
          {| u_inc := None;
             u_set := Some {| set_status := Some st;
                              set_progress := Some (VNum (Fin 100));
                              set_error := Some (error_detail status err) |} |}
          onCompleted_cb]
       /\ (isError status = true -> st = VStr "ERRORED")
       /\ (isError status = false -> truthy status = false ->
           st = VStr "COMPLETED")
       /\ (non_empty status -> st = status)
       /\ persist (id j) (effects o) (Some r) =
          Some {| rec_id := rec_id r; rec_object_type := rec_object_type r;
                  rec_name := rec_name r; rec_status := st;
                  rec_progress := VNum (Fin 100);
                  rec_error := error_detail status err |}.
Proof.
  intros [Hdao Hid] j o. subst o.
  rewrite (onCompleted_run _ _ _ Hdao). simpl result.
  split; [reflexivity | ].
  exists (fst (completed_args status err)).
  unfold effects. rewrite persist_app, persist_log_effects.
  fold j. rewrite (persist_updateFields _ _ _ _ Hid).
  unfold sets_of. rewrite completed_error.
  split; [reflexivity | ].
  unfold completed_args.
  split; [intros H; now rewrite H | ].
  split; [intros H1 H2; now rewrite H1, H2 | ].
  split; [ | reflexivity].
  intros H. pose proof (non_empty_truthy _ H) as Ht.
  destruct H as [s [-> _]]. simpl isError. cbv iota. now rewrite Ht.
Qed.

(** C3: on an initialized job, onStart, onUpdate and onCompleted return
    normally, and when the DAO later reports a failure to their callback,
    all that happens is one call of the logger at error severity, with the
    stack of the failure. *)
Theorem persistence_failure_is_logged_only
    (failure : error) (res : value) (w : world)
    (status progressIncrement ustatus cstatus cerr : value) :
  initialized (this w) ->
  (result (onStart status w) = Normal (RetVal VUndefined)
   /\ deliver (VError failure) res (effects (onStart status w)) =
      [LogError [VStr "JobRunner: Failed to mark job as started %s";
                 VStr (err_stack failure)]])
  /\ (result (onUpdate progressIncrement ustatus w)
      = Normal (RetVal VUndefined)
      /\ deliver (VError failure) res
           (effects (onUpdate progressIncrement ustatus w)) =
         [LogError [VStr "JobRunner: Failed to update job progress - ";
                    VStr (err_stack failure)]])
  /\ (result (onCompleted cstatus cerr w) = Normal (RetVal VUndefined)
      /\ deliver (VError failure) res (effects (onCompleted cstatus cerr w)) =
         [LogError [VStr "JobRunner: Failed to update job as completed - %s";
                    VStr (err_stack failure)]]).
Proof.
  intros [Hdao _].
  rewrite (onStart_run _ _ Hdao), (onUpdate_run _ _ _ Hdao),
    (onCompleted_run _ _ _ Hdao).
  repeat split.
Qed.

(** X21: on an initialized job, a reply of the DAO whose first argument is
    not an Error object (null on success, but also a string or any other
    value) makes the callbacks of onStart, onUpdate and onCompleted do
    nothing: no call of the logger. *)
Lemma success_is_silent (err res : value) (w : world)
    (status progressIncrement ustatus cstatus cerr : value) :
  initialized (this w) ->
  isError err = false ->
  deliver err res (effects (onStart status w)) = []
  /\ deliver err res (effects (onUpdate progressIncrement ustatus w)) = []
  /\ deliver err res (effects (onCompleted cstatus cerr w)) = [].
Proof.
  intros [Hdao _] He.
  rewrite (onStart_run _ _ Hdao), (onUpdate_run _ _ _ Hdao),
    (onCompleted_run _ _ _ Hdao).
  simpl. unfold onStart_cb, onUpdate_cb, onCompleted_cb.
  rewrite He. repeat split.
Qed.

(** [onUpdate] always reaches the DAO: the update it sends is empty when
    neither argument is valid. *)
Lemma onUpdate_always_writes (progressIncrement status : value) (w : world) :
  initialized (this w) ->
  job_writes (effects (onUpdate progressIncrement status w)) =
  [DaoUpdateFields JOB_STORE_NAME (getIDWhere (id (this w)))
     (updates_of progressIncrement status) onUpdate_cb].
Proof.
  intros [Hdao _]. rewrite (onUpdate_run _ _ _ Hdao). reflexivity.
Qed.

Lemma updates_of_invalid (progressIncrement status : value) :
  isFloat progressIncrement true true = false ->
  validateNonEmptyStr status true = false ->
  updates_of progressIncrement status = empty_update.
Proof.
  intros H1 H2. unfold updates_of. now rewrite H1, H2.
Qed.

(** The stored progress after one update with a valid increment. *)
Lemma onUpdate_adds (d p : Q) (status : value) (w : world) (r : job_record) :
  initialized (this w) ->
  isFloat (VNum (Fin d)) true true = true ->
  rec_progress r = VNum (Fin p) ->
  exists r',
    persist (id (this w)) (effects (onUpdate (VNum (Fin d)) status w))
      (Some r) = Some r'
    /\ rec_progress r' = VNum (Fin (p + d)).
Proof.
  intros [Hdao Hid] Hd Hp. rewrite (onUpdate_run _ _ _ Hdao).
  unfold effects. rewrite persist_app, persist_log_effects.
  rewrite (persist_updateFields _ _ _ _ Hid).
  eexists. split; [reflexivity | ].
  unfold updates_of. rewrite Hd.
  destruct (validateNonEmptyStr status true); unfold apply_update; simpl;
    unfold apply_inc; rewrite Hp; reflexivity.
Qed.

Lemma onUpdate_keeps_this (progressIncrement status : value) (w : world) :
  initialized (this w) ->
  this (after (onUpdate progressIncrement status w)) = this w
  /\ result (onUpdate progressIncrement status w)
     = Normal (RetVal VUndefined).
Proof.
  intros [Hdao _]. rewrite (onUpdate_run _ _ _ Hdao). split; reflexivity.
Qed.

(** C5: on an initialized job whose stored progress is p, onUpdate(10)
    followed by onUpdate(15) leaves the stored progress equal to p + 25:
    each valid increment is added to the stored field. *)
Theorem onUpdate_is_additive (p : Q) (w : world) (r : job_record) :
  initialized (this w) ->
  isFloat (VNum (Fin 10)) true true = true ->
  isFloat (VNum (Fin 15)) true true = true ->
  rec_progress r = VNum (Fin p) ->
  let o := (onUpdate (VNum (Fin 10)) VUndefined ;;
            onUpdate (VNum (Fin 15)) VUndefined) w in
  result o = Normal (RetVal VUndefined)
  /\ exists r' q,
       persist (id (this w)) (effects o) (Some r) = Some r'
       /\ rec_progress r' = VNum (Fin q)
       /\ (q == p + 25)%Q.
Proof.
  intros Hinit H10 H15 Hp o. subst o.
  destruct (onUpdate_keeps_this (VNum (Fin 10)) VUndefined w Hinit)
    as [Hthis Hres].
  assert (Hinit' : initialized
            (this (after (onUpdate (VNum (Fin 10)) VUndefined w))))
    by now rewrite Hthis.
  destruct (onUpdate_keeps_this (VNum (Fin 15)) VUndefined _ Hinit')
    as [_ Hres'].
  destruct (onUpdate_adds 10 p VUndefined w r Hinit H10 Hp)
    as [r1 [Hr1 Hp1]].
  destruct (onUpdate_adds 15 (p + 10) VUndefined _ r1 Hinit' H15 Hp1)
    as [r2 [Hr2 Hp2]].
  rewrite Hthis in Hr2.
  rewrite (bind_result _ _ _ _ Hres), (bind_effects _ _ _ _ Hres).
  split; [exact Hres' | ].
  exists r2, (p + 10 + 15)%Q.
  rewrite persist_app, Hr1, Hr2.
  repeat split; [exact Hp2 | ring].
Qed.

(** C1 fails on the code: on an initialized job, when progressIncrement is
    not a valid number and status is not a non-empty string, onUpdate still
    calls updateFields of the DAO, once, with an update that holds
    nothing. *)
Theorem onUpdate_writes_when_nothing_is_valid
    (progressIncrement status : value) (w : world) :
  initialized (this w) ->
  isFloat progressIncrement true true = false ->
  validateNonEmptyStr status true = false ->
  job_writes (effects (onUpdate progressIncrement status w)) =
  [DaoUpdateFields "job_run" (getIDWhere (id (this w)))
     {| u_inc := None; u_set := None |} onUpdate_cb].
Proof.
  intros Hinit H1 H2.
  pose proof (onUpdate_always_writes progressIncrement status w Hinit) as Hw.
  rewrite (updates_of_invalid _ _ H1 H2) in Hw. exact Hw.
Qed.

End Lifecycle.

(** *** The job runner, further *)

Lemma string_app_nil_r (s : string) : s ++ "" = s.
Proof. induction s as [ | c s IH]; simpl; [reflexivity | now rewrite IH]. Qed.

Section JobRunnerFurther.

Context {P : Platform}.

(** X1: a value whose number lies within (0, 1] is stored as it is given
    and read back unchanged; the call returns the instance, writes nothing
    and leaves the DAO, the id and the name alone. *)
Theorem setChunkOfWorkPercentage_round_trip (chunk : value) (w : world) :
  num_in_unit_interval (ToNumber chunk) = true ->
  let o := setChunkOfWorkPercentage chunk w in
  result o = Normal RetThis
  /\ result (getChunkOfWorkPercentage (after o)) = Normal chunk
  /\ effects o = []
  /\ dao (this (after o)) = dao (this w)
  /\ id (this (after o)) = id (this w)
  /\ name (this (after o)) = name (this w).
Proof.
  intros H o. subst o. rewrite setChunkOfWorkPercentage_run, H.
  repeat split.
Qed.

(** X2: before init the instance has no DAO: log with an argument, onStart,
    onUpdate and onCompleted all throw the TypeError of a call on null, and
    nothing is persisted or logged. *)
Theorem lifecycle_before_init_throws
    (a0 : value) (rest : list value)
    (status progressIncrement ustatus cstatus cerr : value) (w : world) :
  dao (this w) = None ->
  log (a0 :: rest) w = mkOutcome w [] (Throw (TypeErrorOnNull "update"))
  /\ onStart status w = mkOutcome w [] (Throw (TypeErrorOnNull "save"))
  /\ onUpdate progressIncrement ustatus w
     = mkOutcome w [] (Throw (TypeErrorOnNull "update"))
  /\ onCompleted cstatus cerr w
     = mkOutcome w [] (Throw (TypeErrorOnNull "update")).
Proof.
  intros H. destruct w as [[d i n c] u r]; simpl in H. subst d.
  split; [destruct rest; reflexivity | ].
  split; [reflexivity | ].
  split; [reflexivity | ].
  unfold onCompleted. destruct (completed_args cstatus cerr). reflexivity.
Qed.

(** X3: init writes nothing and keeps the work-weight, and whatever its
    arguments are, the instance can report afterwards: log, onStart,
    onUpdate and onCompleted return normally. *)
Theorem init_enables_lifecycle
    (name0 jobId : value) (w : world) (args : list value)
    (status progressIncrement ustatus cstatus cerr : value) :
  let o := init name0 jobId w in
  effects o = []
  /\ chunkOfWorkPercentage (this (after o)) = chunkOfWorkPercentage (this w)
  /\ result (log args (after o)) = Normal (RetVal VUndefined)
  /\ result (onStart status (after o)) = Normal (RetVal VUndefined)
  /\ result (onUpdate progressIncrement ustatus (after o))
     = Normal (RetVal VUndefined)
  /\ result (onCompleted cstatus cerr (after o)) = Normal (RetVal VUndefined).
Proof.
  intros o. subst o.
  assert (Hdao : dao (this (after (init name0 jobId w))) <> None)
    by (rewrite init_run; discriminate).
  rewrite (onStart_run _ _ Hdao), (onUpdate_run _ _ _ Hdao),
    (onCompleted_run _ _ _ Hdao).
  split; [now rewrite init_run | ].
  split; [now rewrite init_run | ].
  split; [ | repeat split].
  destruct args as [ | a0 rest]; [reflexivity | ].
  now rewrite (log_run _ _ _ Hdao).
Qed.

(** X4: two instances that are initialized without a jobId, one after the
    other, get different ids when the generator never repeats itself; an
    init with a jobId takes no identifier from the generator. *)
Theorem init_ids_are_fresh
    (name1 jobId1 name2 jobId2 name3 jobId3 : value) (j2 : JobRunner)
    (w : world) :
  (forall a b, uniqueId a = uniqueId b -> a = b) ->
  truthy jobId1 = false ->
  truthy jobId2 = false ->
  let o1 := init name1 jobId1 w in
  let o2 := init name2 jobId2
              {| this := j2; uid_calls := uid_calls (after o1);
                 next_ref := next_ref (after o1) |} in
  id (this (after o1)) <> id (this (after o2))
  /\ (truthy jobId3 = true ->
      uid_calls (after (init name3 jobId3 w)) = uid_calls w).
Proof.
  intros Hinj H1 H2 o1 o2. subst o1 o2. rewrite !init_run. simpl.
  rewrite H1, H2. split.
  - intros E. injection E as E. apply Hinj in E. lia.
  - intros H3. now rewrite H3.
Qed.

(** X5: log, onStart, onUpdate and onCompleted never change the instance
    and never take an identifier from the generator, whether they return
    or throw. *)
Theorem lifecycle_keeps_instance
    (args : list value)
    (status progressIncrement ustatus cstatus cerr : value) (w : world) :
  (this (after (log args w)) = this w
   /\ uid_calls (after (log args w)) = uid_calls w)
  /\ (this (after (onStart status w)) = this w
      /\ uid_calls (after (onStart status w)) = uid_calls w)
  /\ (this (after (onUpdate progressIncrement ustatus w)) = this w
      /\ uid_calls (after (onUpdate progressIncrement ustatus w))
         = uid_calls w)
  /\ (this (after (onCompleted cstatus cerr w)) = this w
      /\ uid_calls (after (onCompleted cstatus cerr w)) = uid_calls w).
Proof.
  assert (Hlog : this (after (log args w)) = this w
                 /\ uid_calls (after (log args w)) = uid_calls w).
  { destruct args as [ | a0 rest]; [split; reflexivity | ].
    destruct (dao (this w)) eqn:E.
    - assert (Hdao : dao (this w) <> None) by congruence.
      rewrite (log_run _ _ _ Hdao). split; reflexivity.
    - destruct (lifecycle_before_init_throws a0 rest status progressIncrement
                  ustatus cstatus cerr w E) as [-> _].
      split; reflexivity. }
  split; [exact Hlog | ].
  destruct (dao (this w)) eqn:E.
  - assert (Hdao : dao (this w) <> None) by congruence.
    rewrite (onStart_run _ _ Hdao), (onUpdate_run _ _ _ Hdao),
      (onCompleted_run _ _ _ Hdao).
    repeat split.
  - destruct (lifecycle_before_init_throws VUndefined [] status
                progressIncrement ustatus cstatus cerr w E)
      as [_ [-> [-> ->]]].
    repeat split.
Qed.

Lemma persist_onStart (status : value) (w : world)
    (slot : option job_record) :
  initialized (this w) ->
  persist (id (this w)) (effects (onStart status w)) slot =
  Some {| rec_id := id (this w); rec_object_type := JOB_STORE_NAME;
          rec_name := name (this w);
          rec_status := js_or status (VStr DEFAULT_START_STATUS);
          rec_progress := VNum zero; rec_error := VUndefined |}.
Proof.
  intros [Hdao Hid]. rewrite (onStart_run _ _ Hdao). simpl.
  now rewrite (value_eqb_refl _ Hid).
Qed.

Lemma persist_onUpdate (progressIncrement status : value) (w : world)
    (r : job_record) :
  initialized (this w) ->
  persist (id (this w)) (effects (onUpdate progressIncrement status w))
    (Some r)
  = Some (apply_update (updates_of progressIncrement status) r).
Proof.
  intros [Hdao Hid]. rewrite (onUpdate_run _ _ _ Hdao).
  unfold effects. rewrite persist_app, persist_log_effects.
  apply (persist_updateFields _ _ _ _ Hid).
Qed.




(** X6: on an initialized job, onStart(status) saves the supplied status
    when it is a non-empty string and RUNNING when it is falsy; whatever
    was stored under the id before, the stored record afterwards is at
    progress 0 and has no error. *)
Theorem onStart_resets_record
    (status : value) (w : world) (slot : option job_record) :
  initialized (this w) ->
  let j := this w in
  exists st,
    effects (onStart status w) =
    [DaoSave {| job_where := getIDWhere (id j);
                job_object_type := "job_run";
                job_name := name j;
                job_status := st;
                job_progress := VNum (Fin 0) |} onStart_cb]
    /\ (non_empty status -> st = status)
    /\ (truthy status = false -> st = VStr "RUNNING")
    /\ persist (id j) (effects (onStart status w)) slot =
       Some {| rec_id := id j; rec_object_type := "job_run";
               rec_name := name j; rec_status := st;
               rec_progress := VNum (Fin 0); rec_error := VUndefined |}.
Proof.
  intros Hinit j. subst j.
  exists (js_or status (VStr DEFAULT_START_STATUS)).
  rewrite (persist_onStart status w slot Hinit).
  destruct Hinit as [Hdao _]. rewrite (onStart_run _ _ Hdao).
  split; [reflexivity | ].
  split; [ | split; [ | reflexivity]]; unfold js_or.
  - intros H. now rewrite (non_empty_truthy _ H).
  - intros H. now rewrite H.
Qed.

(** X7: on an initialized job, when both arguments of onUpdate are valid
    they travel in one single update, which adds the increment to the
    stored progress and overwrites the stored status; the name and the
    error of the record are left alone. *)
Theorem onUpdate_single_update
    (d p : Q) (status : value) (w : world) (r : job_record) :
  initialized (this w) ->
  isFloat (VNum (Fin d)) true true = true ->
  validateNonEmptyStr status true = true ->
  rec_progress r = VNum (Fin p) ->
  job_writes (effects (onUpdate (VNum (Fin d)) status w)) =
  [DaoUpdateFields "job_run" (getIDWhere (id (this w)))
     {| u_inc := Some (VNum (Fin d));
        u_set := Some {| set_status := Some status; set_progress := None;
                         set_error := None |} |} onUpdate_cb]
  /\ persist (id (this w)) (effects (onUpdate (VNum (Fin d)) status w))
       (Some r) =
     Some {| rec_id := rec_id r; rec_object_type := rec_object_type r;
             rec_name := rec_name r; rec_status := status;
             rec_progress := VNum (Fin (p + d));
             rec_error := rec_error r |}.
Proof.
  intros Hinit Hd Hs Hp.
  rewrite (persist_onUpdate _ _ _ r Hinit),
    (onUpdate_always_writes _ _ _ Hinit).
  unfold updates_of. rewrite Hd, Hs.
  split; [reflexivity | ].
  unfold apply_update, put_set, put_inc, apply_inc. simpl. rewrite Hp.
  reflexivity.
Qed.

(** X8: on an initialized job, an onUpdate whose increment is not valid and
    whose status is valid sends no increment: the stored status is
    overwritten and the stored progress, name and error stay as they
    were. *)
Theorem onUpdate_status_only
    (progressIncrement status : value) (w : world) (r : job_record) :
  initialized (this w) ->
  isFloat progressIncrement true true = false ->
  validateNonEmptyStr status true = true ->
  job_writes (effects (onUpdate progressIncrement status w)) =
  [DaoUpdateFields "job_run" (getIDWhere (id (this w)))
     {| u_inc := None;
        u_set := Some {| set_status := Some status; set_progress := None;
                         set_error := None |} |} onUpdate_cb]
  /\ persist (id (this w)) (effects (onUpdate progressIncrement status w))
       (Some r) =
     Some {| rec_id := rec_id r; rec_object_type := rec_object_type r;
             rec_name := rec_name r; rec_status := status;
             rec_progress := rec_progress r;
             rec_error := rec_error r |}.
Proof.
  intros Hinit Hd Hs.
  rewrite (persist_onUpdate _ _ _ r Hinit),
    (onUpdate_always_writes _ _ _ Hinit).
  unfold updates_of. rewrite Hd, Hs.
  split; reflexivity.
Qed.

(** The two patterns of the lifecycle, once formatted. *)
Lemma update_pattern_formatted (i n p s : value) :
  util_format [VStr update_pattern; i; n; p; s] =
  "Updating job [" ++ ToString i ++ ":" ++ ToString n ++ "] by "
  ++ ToString p ++ " percent with status: " ++ ToString s.
Proof.
  unfold util_format, update_pattern. simpl.
  rewrite !string_app_nil_r. reflexivity.
Qed.

Lemma completed_pattern_formatted (i n s : value) :
  util_format [VStr completed_pattern; i; n; s] =
  "Setting job [" ++ ToString i ++ ":" ++ ToString n
  ++ "] as completed with status: " ++ ToString s.
Proof.
  unfold util_format, completed_pattern. simpl.
  rewrite !string_app_nil_r. reflexivity.
Qed.

(** X9: on an initialized job whose name holds no %, onUpdate and
    onCompleted each persist one Job Log Entry before their write, and its
    message spells out the id, the name and the arguments of the call. *)
Theorem lifecycle_log_lines
    (progressIncrement ustatus cstatus cerr : value) (w : world) :
  initialized (this w) ->
  no_percent (ToString (name (this w))) = true ->
  let j := this w in
  (exists u,
     effects (onUpdate progressIncrement ustatus w) =
     [DaoUpdate
        {| object_type := "job_log"; job_id := id j;
           worker_id := getWorkerId; st_name := name j;
           message :=
             (ToString (name j) ++ ": ")
             ++ "Updating job [" ++ ToString (id j) ++ ":"
             ++ ToString (name j) ++ "] by " ++ ToString progressIncrement
             ++ " percent with status: " ++ ToString ustatus;
           metadata := [] |};
      Sink (LogDebug
              [VStr ((ToString (name j) ++ ": ")
                     ++ "Updating job [%s:%s] by %s percent with status: %s");
               id j; name j; progressIncrement; ustatus]);
      DaoUpdateFields "job_run" (getIDWhere (id j)) u onUpdate_cb])
  /\ (exists st u,
        effects (onCompleted cstatus cerr w) =
        [DaoUpdate
           {| object_type := "job_log"; job_id := id j;
              worker_id := getWorkerId; st_name := name j;
              message :=
                (ToString (name j) ++ ": ")
                ++ "Setting job [" ++ ToString (id j) ++ ":"
                ++ ToString (name j) ++ "] as completed with status: "
                ++ ToString st;
              metadata := [] |};
         Sink (LogDebug
                 [VStr ((ToString (name j) ++ ": ")
                        ++ "Setting job [%s:%s] as completed with status: %s");
                  id j; name j; st]);
         DaoUpdateFields "job_run" (getIDWhere (id j)) u onCompleted_cb]
        /\ (isError cstatus = true -> st = VStr "ERRORED")
        /\ (isError cstatus = false -> truthy cstatus = false ->
            st = VStr "COMPLETED")
        /\ (isError cstatus = false -> truthy cstatus = true ->
            st = cstatus)).
Proof.
  intros [Hdao _] Hname j. subst j.
  assert (Hprefix : no_percent (ToString (name (this w)) ++ ": ") = true)
    by (rewrite no_percent_app, Hname; reflexivity).
  rewrite (onUpdate_run _ _ _ Hdao), (onCompleted_run _ _ _ Hdao).
  unfold effects, log_effects, log_statement, log_message.
  simpl ToString.
  split.
  - eexists.
    rewrite (util_format_prefix _ update_pattern _ Hprefix).
    rewrite update_pattern_formatted. reflexivity.
  - exists (fst (completed_args cstatus cerr)). eexists.
    rewrite (util_format_prefix _ completed_pattern _ Hprefix).
    rewrite completed_pattern_formatted. split; [reflexivity | ].
    unfold completed_args.
    split; [intros H; now rewrite H | ].
    split; intros H1 H2; now rewrite H1, H2.
Qed.







End JobRunnerFurther.

(** *** The SlideShare media renderer *)

Module SlideShare.

Import SlideShareMediaRenderer.

(** **** Occurrences *)

Lemma substring_prefix (t s : string) :
  substring 0 (String.length t) s = t -> exists b, s = t ++ b.
Proof.
  revert s. induction t as [ | c t IH]; intros s H.
  - exists s. reflexivity.
  - destruct s as [ | c' s]; simpl in H; [discriminate | ].
    injection H as -> H. destruct (IH s H) as [b ->].
    exists b. reflexivity.
Qed.

Lemma substring_occurs (n : nat) (t s : string) :
  substring n (String.length t) s = t -> occurs t s.
Proof.
  revert s. induction n as [ | n IH]; intros s H.
  - destruct (substring_prefix t s H) as [b ->]. exists "", b. reflexivity.
  - destruct s as [ | c s]; simpl in H.
    + subst t. exists "", "". reflexivity.
    + destruct (IH s H) as [a [b ->]]. exists (String c a), b. reflexivity.
Qed.

Lemma substring_of_prefix (t b : string) :
  substring 0 (String.length t) (t ++ b) = t.
Proof.
  induction t as [ | c t IH]; simpl.
  - destruct b; reflexivity.
  - now rewrite IH.
Qed.

Lemma substring_of_occurrence (a t b : string) :
  substring (String.length a) (String.length t) (a ++ t ++ b) = t.
Proof.
  induction a as [ | c a IH]; simpl.
  - apply substring_of_prefix.
  - exact IH.
Qed.

Section Facts.

Context {P : Platform} {N : Node}.

(** [indexOf] finds a text exactly when it occurs. *)
Lemma indexOf_occurs (s sub : string) :
  sub <> "" ->
  (0 <=? indexOf s sub)%Z = true <-> occurs sub s.
Proof.
  intros Hsub. unfold indexOf.
  destruct (String.index 0 sub s) as [n | ] eqn:E.
  - split; [intros _ | intros _; apply Z.leb_le; lia].
    apply (substring_occurs n). exact (index_correct1 _ _ _ _ E).
  - split; [discriminate | ].
    intros [a [b ->]]. exfalso.
    apply (index_correct3 0 (String.length a) _ _ E Hsub); [lia | ].
    apply substring_of_occurrence.
Qed.

Lemma contains_occurs (s sub : string) (b : bool) :
  sub <> "" ->
  contains (Some s) sub = Ok b -> (b = true <-> occurs sub s).
Proof.
  intros Hsub H. injection H as <-. now apply indexOf_occurs.
Qed.

Lemma isFullSite_object (h p : string) (q : jv) :
  (full_site h p ->
   isFullSite (UrlObject {| host := Some h; pathname := Some p; query := q |})
   = Ok true)
  /\ (~ full_site h p ->
      isFullSite
        (UrlObject {| host := Some h; pathname := Some p; query := q |})
      = Ok false).
Proof.
  assert (Hcom : "slideshare.com" <> "") by discriminate.
  assert (Hnet : "slideshare.net" <> "") by discriminate.
  assert (Hslash : "/" <> "") by discriminate.
  pose proof (indexOf_occurs h _ Hcom) as Ecom.
  pose proof (indexOf_occurs h _ Hnet) as Enet.
  pose proof (indexOf_occurs p _ Hslash) as Eslash.
  unfold isFullSite, contains, full_site. cbn [host pathname].
  destruct (0 <=? indexOf h "slideshare.com")%Z;
    destruct (0 <=? indexOf h "slideshare.net")%Z;
    destruct (0 <=? indexOf p "/")%Z;
    split; intros H; try reflexivity; exfalso;
    try (apply H; clear H);
    repeat match goal with
    | H : (_ \/ _) /\ _ |- _ => destruct H
    | H : _ \/ _ |- _ => destruct H
    | H : occurs _ _ |- _ =>
        first [apply Ecom in H | apply Enet in H | apply Eslash in H];
        discriminate
    end;
    try (split;
         [first [left; now apply Ecom | right; now apply Enet]
         | now apply Eslash]).
Qed.

(** X13: for a URL that url.parse gives a host and a path, isSupported is
    true and getType is 'slideshare' exactly when slideshare.com or
    slideshare.net occurs somewhere in the host and / occurs in the path;
    otherwise isSupported is false and getType is null. *)
Theorem getType_follows_the_host (urlStr h p : string) :
  host (url_parse urlStr) = Some h ->
  pathname (url_parse urlStr) = Some p ->
  (full_site h p ->
   isSupported urlStr = Ok true /\ getType urlStr = Ok (Str "slideshare"))
  /\ (~ full_site h p ->
      isSupported urlStr = Ok false /\ getType urlStr = Ok Null).
Proof.
  intros Hh Hp. unfold getType, isSupported.
  destruct (url_parse urlStr) as [h' p' q]. simpl in Hh, Hp. subst h' p'.
  destruct (isFullSite_object h p q) as [Hyes Hno].
  split; intros H.
  - rewrite (Hyes H). split; reflexivity.
  - rewrite (Hno H). split; reflexivity.
Qed.

(** X14: isFullSite throws on every string argument, and isSupported and
    getType throw, instead of answering, for a URL that url.parse gives no
    host. *)
Theorem isSupported_throws_without_host (s urlStr : string) :
  host (url_parse urlStr) = None ->
  isFullSite (UrlString s) = Thrown (Err (reference_error "urlStr"))
  /\ isSupported urlStr = Thrown (Err (null_property_error Null "indexOf"))
  /\ getType urlStr = Thrown (Err (null_property_error Null "indexOf")).
Proof.
  intros H. unfold getType, isSupported, isFullSite, contains.
  rewrite H. repeat split.
Qed.

(** **** The response *)

Lemma seq_done (a : R) : seq a ([], Ok tt) = a.
Proof.
  destruct a as [t [[] | x]]; simpl; [ | reflexivity].
  now rewrite app_nil_r.
Qed.

Lemma listen_data (cb : callback) (chunks : list string) (str : string)
    (armed : bool) (events : list response_event) :
  listen cb str armed (map Data chunks ++ events)%list
  = listen cb (str ++ join_chunks chunks) armed events.
Proof.
  revert str. induction chunks as [ | c chunks IH]; intros str; simpl.
  - now rewrite string_app_nil_r.
  - now rewrite IH, string_app_assoc.
Qed.

(** The listeners at the end of a response. *)
Lemma listen_complete (cb : callback) (chunks : list string) :
  listen cb "" true (complete chunks) = on_end cb (join_chunks chunks).
Proof.
  unfold complete. rewrite listen_data. simpl. apply seq_done.
Qed.

Lemma listen_broken (cb : callback) (chunks : list string) (e : error) :
  listen cb "" true (broken chunks e) = cb (Err e) Undefined.
Proof.
  unfold broken. rewrite listen_data. simpl. apply seq_done.
Qed.

(** X15: getDetails sends one request to www.slideshare.net for the
    encoded URL.  When the response ends and the chunks, put together,
    parse as JSON, a callback that returns is called once, with null and
    the data; when they do not parse, or when the response fails, the
    callback is called once with the error. *)
Theorem getDetails_reports_once
    (urlStr : string) (chunks : list string)
    (behaviour : jv -> jv -> outcome unit) :
  let x := getDetails urlStr (observe behaviour) in
  fst x = ("www.slideshare.net",
           "/api/oembed/2?url=" ++ encodeURIComponent urlStr
           ++ "&format=jsonp&callback=?")
  /\ (forall data,
        JSON_parse (join_chunks chunks) = Parsed data ->
        behaviour Null data = Ok tt ->
        snd x (complete chunks) = ([Called Null data], Ok tt))
  /\ (forall e,
        JSON_parse (join_chunks chunks) = SyntaxError e ->
        snd x (complete chunks)
        = ([Called (Err e) Undefined], behaviour (Err e) Undefined))
  /\ (forall e,
        snd x (broken chunks e)
        = ([Called (Err e) Undefined], behaviour (Err e) Undefined)).
Proof.
  intros x. subst x. unfold getDetails. cbn [fst snd].
  split; [reflexivity | ].
  split; [ | split].
  - intros data Hparse Hret. rewrite listen_complete.
    unfold on_end, observe, try_catch. now rewrite Hparse, Hret.
  - intros e Hparse. rewrite listen_complete.
    unfold on_end, observe, try_catch. now rewrite Hparse.
  - intros e. now rewrite listen_broken.
Qed.

(** X16: the callback of getDetails is called inside the try block: when it
    throws on the data, it is called a second time, with what it threw as
    the error. *)
Theorem getDetails_calls_back_twice
    (urlStr : string) (chunks : list string)
    (behaviour : jv -> jv -> outcome unit) (data thrown : jv) :
  JSON_parse (join_chunks chunks) = Parsed data ->
  behaviour Null data = Thrown thrown ->
  snd (getDetails urlStr (observe behaviour)) (complete chunks)
  = ([Called Null data; Called thrown Undefined],
     behaviour thrown Undefined).
Proof.
  intros Hparse Hthrow. unfold getDetails. cbn [snd].
  rewrite listen_complete.
  unfold on_end, observe, try_catch. now rewrite Hparse, Hthrow.
Qed.

Lemma on_end_pick_object (k : string) (behaviour : jv -> jv -> outcome unit)
    (str : string) (fields : list (string * jv)) :
  JSON_parse str = Parsed (Obj fields) ->
  behaviour Null (field k fields) = Ok tt ->
  on_end (pick k (observe behaviour)) str
  = ([Called Null (field k fields)], Ok tt).
Proof.
  intros Hparse Hret. unfold on_end, pick, try_catch, get, field in *.
  rewrite Hparse. simpl isError. cbv iota.
  destruct (lookup k fields); unfold observe; now rewrite Hret.
Qed.

Lemma on_end_pick_null (k : string) (behaviour : jv -> jv -> outcome unit)
    (str : string) :
  JSON_parse str = Parsed Null ->
  on_end (pick k (observe behaviour)) str
  = ([Called (Err (null_property_error Null k)) Undefined],
     behaviour (Err (null_property_error Null k)) Undefined).
Proof.
  intros Hparse. unfold on_end, pick, try_catch, get.
  rewrite Hparse. reflexivity.
Qed.

(** X17: getMediaId and getThumbnail hand the callback the properties
    slideshow_id and thumbnail of the details, undefined when the details
    are an object without them.  When the response is the JSON text null,
    the TypeError of reading the property is not thrown to the caller: the
    callback gets it as its error. *)
Theorem getMediaId_reports_the_property
    (urlStr : string) (chunks : list string)
    (behaviour : jv -> jv -> outcome unit) :
  (forall fields,
     JSON_parse (join_chunks chunks) = Parsed (Obj fields) ->
     (behaviour Null (field "slideshow_id" fields) = Ok tt ->
      snd (getMediaId urlStr (observe behaviour)) (complete chunks)
      = ([Called Null (field "slideshow_id" fields)], Ok tt))
     /\ (behaviour Null (field "thumbnail" fields) = Ok tt ->
         snd (getThumbnail urlStr (observe behaviour)) (complete chunks)
         = ([Called Null (field "thumbnail" fields)], Ok tt)))
  /\ (JSON_parse (join_chunks chunks) = Parsed Null ->
      snd (getMediaId urlStr (observe behaviour)) (complete chunks)
      = ([Called (Err (null_property_error Null "slideshow_id")) Undefined],
         behaviour (Err (null_property_error Null "slideshow_id")) Undefined)
      /\ snd (getThumbnail urlStr (observe behaviour)) (complete chunks)
         = ([Called (Err (null_property_error Null "thumbnail")) Undefined],
            behaviour (Err (null_property_error Null "thumbnail"))
              Undefined)).
Proof.
  unfold getMediaId, getThumbnail, getDetails. cbn [snd].
  rewrite !listen_complete.
  split.
  - intros fields Hparse. split; intros Hret.
    + now apply on_end_pick_object.
    + now apply on_end_pick_object.
  - intros Hparse. split; now apply on_end_pick_null.
Qed.

(** **** Rendering *)

Lemma render_object (media location : jv) (src : string)
    (ofields : list (string * jv)) (cb : option callback) :
  get media "location" = Ok location ->
  to_string location = Some src ->
  render media (Val (Obj ofields)) cb
  = call cb Null
      (renderIFrameEmbed ("//www.slideshare.net/slideshow/embed_code/" ++ src)
         (field "attrs" ofields) (field "style" ofields)).
Proof.
  intros Hloc Hsrc. unfold render, getEmbedUrl, concat_to.
  rewrite Hloc, Hsrc. unfold get, field.
  destruct (lookup "attrs" ofields); destruct (lookup "style" ofields);
    reflexivity.
Qed.

(** X18: render(media, cb) is render(media, {}, cb): the callback is
    called once, with null as the error and the iframe of the embed URL of
    the location, without attributes or style.  With an object of options
    the iframe gets its attrs and style.  With undefined or null in the
    place of the options, render throws a TypeError and does not call the
    callback. *)
Theorem render_call_shapes
    (media location : jv) (src : string)
    (behaviour : jv -> jv -> outcome unit) (ignored : option callback)
    (ofields : list (string * jv)) :
  get media "location" = Ok location ->
  to_string location = Some src ->
  let embedUrl := "//www.slideshare.net/slideshow/embed_code/" ++ src in
  render media (Fn (observe behaviour)) ignored
  = render media (Val (Obj [])) (Some (observe behaviour))
  /\ render media (Fn (observe behaviour)) ignored
     = ([Called Null (renderIFrameEmbed embedUrl Undefined Undefined)],
        behaviour Null (renderIFrameEmbed embedUrl Undefined Undefined))
  /\ render media (Val (Obj ofields)) (Some (observe behaviour))
     = ([Called Null
           (renderIFrameEmbed embedUrl (field "attrs" ofields)
              (field "style" ofields))],
        behaviour Null
          (renderIFrameEmbed embedUrl (field "attrs" ofields)
             (field "style" ofields)))
  /\ render media (Val Undefined) (Some (observe behaviour))
     = ([], Thrown (Err (null_property_error Undefined "attrs")))
  /\ render media (Val Null) (Some (observe behaviour))
     = ([], Thrown (Err (null_property_error Null "attrs"))).
Proof.
  intros Hloc Hsrc embedUrl. subst embedUrl.
  split; [reflexivity | ].
  split.
  { change (render media (Fn (observe behaviour)) ignored)
      with (render media (Val (Obj [])) (Some (observe behaviour))).
    now rewrite (render_object _ _ _ _ _ Hloc Hsrc). }
  split; [now rewrite (render_object _ _ _ _ _ Hloc Hsrc) | ].
  unfold render, getEmbedUrl, concat_to. rewrite Hloc, Hsrc.
  split; reflexivity.
Qed.

Lemma renderByUrl_on_details (urlStr : string) (options : options_arg)
    (cb : option callback) (chunks : list string)
    (fields : list (string * jv)) (t : list event) :
  JSON_parse (join_chunks chunks) = Parsed (Obj fields) ->
  render (Obj [("location", field "slideshow_id" fields)]) options cb
  = (t, Ok tt) ->
  snd (renderByUrl urlStr options cb) (complete chunks) = (t, Ok tt).
Proof.
  intros Hparse Hrender. unfold renderByUrl, getMediaId, getDetails.
  cbn [snd]. rewrite listen_complete. unfold on_end. rewrite Hparse.
  unfold pick at 1. simpl isError. cbv iota. unfold get at 1.
  unfold field in Hrender.
  destruct (lookup "slideshow_id" fields); simpl isError; cbv iota;
    now rewrite Hrender.
Qed.

Lemma renderByUrl_on_failure (urlStr : string) (options : options_arg)
    (cb : option callback) (chunks : list string) (e : error) :
  snd (renderByUrl urlStr options cb) (broken chunks e)
  = call cb (Err e) Undefined
  /\ (JSON_parse (join_chunks chunks) = SyntaxError e ->
      snd (renderByUrl urlStr options cb) (complete chunks)
      = call cb (Err e) Undefined).
Proof.
  unfold renderByUrl, getMediaId, getDetails. cbn [snd].
  rewrite listen_broken, listen_complete. split; [reflexivity | ].
  intros Hparse. unfold on_end. rewrite Hparse.
  unfold try_catch, pick. simpl isError. cbv iota.
  destruct (call cb (Err e) Undefined). reflexivity.
Qed.

(** X19: renderByUrl, given an object of options and a callback that
    returns: when the response is a JSON object, the callback is called
    once with null and the iframe of the embed URL of its slideshow_id,
    with the attrs and the style of the options; when the object has no
    slideshow_id, the embed URL ends in undefined.  When the response
    fails or is not JSON, the callback is called once with the error and
    nothing is rendered. *)
Theorem renderByUrl_renders_the_slideshow
    (urlStr : string) (chunks : list string)
    (fields ofields : list (string * jv)) (src : string)
    (behaviour : jv -> jv -> outcome unit) (e : error) :
  let cb := Some (observe behaviour) in
  let iframe s :=
    renderIFrameEmbed ("//www.slideshare.net/slideshow/embed_code/" ++ s)
      (field "attrs" ofields) (field "style" ofields) in
  (JSON_parse (join_chunks chunks) = Parsed (Obj fields) ->
   to_string (field "slideshow_id" fields) = Some src ->
   behaviour Null (iframe src) = Ok tt ->
   snd (renderByUrl urlStr (Val (Obj ofields)) cb) (complete chunks)
   = ([Called Null (iframe src)], Ok tt))
  /\ (JSON_parse (join_chunks chunks) = Parsed (Obj fields) ->
      lookup "slideshow_id" fields = None ->
      behaviour Null (iframe "undefined") = Ok tt ->
      snd (renderByUrl urlStr (Val (Obj ofields)) cb) (complete chunks)
      = ([Called Null (iframe "undefined")], Ok tt))
  /\ snd (renderByUrl urlStr (Val (Obj ofields)) cb) (broken chunks e)
     = ([Called (Err e) Undefined], behaviour (Err e) Undefined)
  /\ (JSON_parse (join_chunks chunks) = SyntaxError e ->
      snd (renderByUrl urlStr (Val (Obj ofields)) cb) (complete chunks)
      = ([Called (Err e) Undefined], behaviour (Err e) Undefined)).
Proof.
  intros cb iframe. subst cb iframe.
  assert (Hgo : forall s,
            JSON_parse (join_chunks chunks) = Parsed (Obj fields) ->
            to_string (field "slideshow_id" fields) = Some s ->
            behaviour Null
              (renderIFrameEmbed
                 ("//www.slideshare.net/slideshow/embed_code/" ++ s)
                 (field "attrs" ofields) (field "style" ofields)) = Ok tt ->
            snd (renderByUrl urlStr (Val (Obj ofields))
                   (Some (observe behaviour))) (complete chunks)
            = ([Called Null
                  (renderIFrameEmbed
                     ("//www.slideshare.net/slideshow/embed_code/" ++ s)
                     (field "attrs" ofields) (field "style" ofields))],
               Ok tt)).
  { intros s Hparse Hsrc Hret.
    apply (renderByUrl_on_details _ _ _ _ _ _ Hparse).
    rewrite (render_object _ (field "slideshow_id" fields) s); trivial.
    unfold call, observe. now rewrite Hret. }
  split; [apply Hgo | ].
  split.
  { intros Hparse Hnone. apply Hgo; [exact Hparse | ].
    unfold field. now rewrite Hnone. }
  destruct (renderByUrl_on_failure urlStr (Val (Obj ofields))
              (Some (observe behaviour)) chunks e) as [Hbroken Hsyntax].
  split; [exact Hbroken | exact Hsyntax].
Qed.

(** X20: renderByUrl(url, cb), with the callback in the place of the
    options, renders on success as render(media, cb) does; but when the
    response fails or is not JSON, the error is not handed to the
    callback: the call of the missing third argument throws a TypeError,
    and the callback is never called. *)
Theorem renderByUrl_two_arguments
    (urlStr : string) (chunks : list string)
    (fields : list (string * jv)) (src : string)
    (behaviour : jv -> jv -> outcome unit) (e : error) :
  let iframe :=
    renderIFrameEmbed ("//www.slideshare.net/slideshow/embed_code/" ++ src)
      Undefined Undefined in
  (JSON_parse (join_chunks chunks) = Parsed (Obj fields) ->
   to_string (field "slideshow_id" fields) = Some src ->
   behaviour Null iframe = Ok tt ->
   snd (renderByUrl urlStr (Fn (observe behaviour)) None) (complete chunks)
   = ([Called Null iframe], Ok tt))
  /\ snd (renderByUrl urlStr (Fn (observe behaviour)) None) (broken chunks e)
     = ([], Thrown (Err (not_a_function_error "cb")))
  /\ (JSON_parse (join_chunks chunks) = SyntaxError e ->
      snd (renderByUrl urlStr (Fn (observe behaviour)) None)
        (complete chunks)
      = ([], Thrown (Err (not_a_function_error "cb")))).
Proof.
  intros iframe. subst iframe.
  split.
  { intros Hparse Hsrc Hret.
    apply (renderByUrl_on_details _ _ _ _ _ _ Hparse).
    change (render (Obj [("location", field "slideshow_id" fields)])
              (Fn (observe behaviour)) None)
      with (render (Obj [("location", field "slideshow_id" fields)])
              (Val (Obj [])) (Some (observe behaviour))).
    rewrite (render_object _ (field "slideshow_id" fields) src); trivial.
    unfold call, observe, field. simpl lookup. cbv iota. now rewrite Hret. }
  destruct (renderByUrl_on_failure urlStr (Fn (observe behaviour)) None
              chunks e) as [Hbroken Hsyntax].
  split; [exact Hbroken | exact Hsyntax].
Qed.

End Facts.

End SlideShare.

(** ** The properties on the sample platform *)

(** The theorems above hold on every platform.  Here they are run on the
    sample platform and the sample job. *)

#[local] Existing Instance Sample.platform.

Lemma sample_ids_not_empty (n : nat) : @uniqueId Sample.platform n <> "".
Proof. discriminate. Qed.

Lemma sample_job_initialized : initialized Sample.job.
Proof. split; [discriminate | reflexivity]. Qed.

(** init("reindex") on a new instance: the id is the first identifier of
    the generator. *)
Lemma init_sets_id_and_name_witness :
  let o := init (VStr "reindex") VUndefined (Sample.start new_JobRunner) in
  result o = Normal RetThis
  /\ (non_empty VUndefined -> result (getId (after o)) = Normal VUndefined)
  /\ (absent_or_empty VUndefined ->
      result (getId (after o)) = Normal (VStr (uniqueId 0))
      /\ uniqueId 0 <> ""
      /\ uid_calls (after o) = 1%nat)
  /\ (non_empty (VStr "reindex") -> name (this (after o)) = VStr "reindex")
  /\ (absent_or_empty (VStr "reindex") ->
      name (this (after o)) = id (this (after o))).
Proof.
  exact (init_sets_id_and_name (VStr "reindex") VUndefined
           (Sample.start new_JobRunner) sample_ids_not_empty).
Defined.

(** setChunkOfWorkPercentage(0) throws and changes nothing. *)
Lemma setChunkOfWorkPercentage_rejects_witness :
  let o := setChunkOfWorkPercentage (VNum (Fin 0)) (Sample.start Sample.job) in
  result o = Throw (ErrorExn chunk_message)
  /\ after o = Sample.start Sample.job
  /\ result (getChunkOfWorkPercentage (after o))
     = result (getChunkOfWorkPercentage (Sample.start Sample.job)).
Proof.
  apply (setChunkOfWorkPercentage_rejects (VNum (Fin 0))
           (Sample.start Sample.job)).
  reflexivity.
Defined.

(** The boolean [true] is not a number, and so not a value within (0, 1];
    the call accepts it all the same and stores it, because the test
    compares the number 1 that [true] converts to. *)
Lemma setChunkOfWorkPercentage_accepts_true :
  in_unit_interval (VBool true) = false
  /\ result (setChunkOfWorkPercentage (VBool true)
               (Sample.start new_JobRunner)) = Normal RetThis
  /\ chunkOfWorkPercentage
       (this (after (setChunkOfWorkPercentage (VBool true)
                       (Sample.start new_JobRunner)))) = VBool true.
Proof. repeat split. Qed.

(** log("x=%s", 5) on the job named reindex persists "reindex: x=5". *)
Lemma log_persists_prefixed_message_witness :
  exists m,
    effects (log [VStr "x=%s"; VNum (Fin 5)] (Sample.start Sample.job)) =
    [DaoUpdate {| object_type := "job_log"; job_id := VStr "42";
                  worker_id := VStr "master"; st_name := VStr "reindex";
                  message := m; metadata := [] |};
     Sink (LogDebug [VStr "reindex: x=%s"; VNum (Fin 5)])]
    /\ m = "reindex: x=5".
Proof.
  destruct (log_persists_prefixed_message "x=%s" [VNum (Fin 5)]
              (Sample.start Sample.job) sample_job_initialized)
    as [_ [m [He [_ Hm]]]].
  exists m. split; [exact He | ].
  rewrite Hm; [reflexivity | discriminate | reflexivity].
Defined.

(** The placeholder in the name takes the argument that was meant for the
    pattern: the message is not the name, the separator and the formatting
    of the pattern. *)
Lemma log_formats_the_name :
  map message
    (log_entries (effects (log [VStr "x=%s"; VStr "5"]
                             (Sample.start sale_job))))
  = ["505ale: x=%s"]
  /\ ToString (name sale_job) ++ ": " ++ util_format [VStr "x=%s"; VStr "5"]
     = "50%sale: x=5".
Proof. split; reflexivity. Qed.

(** onUpdate(undefined, undefined) sends an empty update to the DAO. *)
Lemma onUpdate_writes_when_nothing_is_valid_witness :
  job_writes
    (effects (onUpdate VUndefined VUndefined (Sample.start Sample.job))) =
  [DaoUpdateFields "job_run" (getIDWhere (VStr "42"))
     {| u_inc := None; u_set := None |} onUpdate_cb].
Proof.
  apply (onUpdate_writes_when_nothing_is_valid VUndefined VUndefined
           (Sample.start Sample.job) sample_job_initialized);
    reflexivity.
Defined.

(** onStart() stores the record of the sample job, RUNNING at progress 0. *)
Lemma onStart_persists_running_witness :
  persist (VStr "42")
    (effects (onStart VUndefined (Sample.start Sample.job))) None =
  Some {| rec_id := VStr "42"; rec_object_type := "job_run";
          rec_name := VStr "reindex"; rec_status := VStr "RUNNING";
          rec_progress := VNum (Fin 0); rec_error := VUndefined |}.
Proof.
  destruct (onStart_persists_running (Sample.start Sample.job) None
              sample_job_initialized) as [_ [_ Hstored]].
  exact Hstored.
Defined.

(** onCompleted("PARTIAL", error) stores the status PARTIAL, the progress
    100 and the stack of the error. *)
Lemma onCompleted_persists_outcome_witness :
  persist (VStr "42")
    (effects (onCompleted (VStr "PARTIAL") (VError sample_failure)
                (Sample.start Sample.job))) (Some sample_record) =
  Some {| rec_id := VStr "42"; rec_object_type := "job_run";
          rec_name := VStr "reindex"; rec_status := VStr "PARTIAL";
          rec_progress := VNum (Fin 100);
          rec_error := VStr "Error: connection lost at Db.update" |}.
Proof.
  destruct (onCompleted_persists_outcome (VStr "PARTIAL")
              (VError sample_failure) (Sample.start Sample.job)
              sample_record sample_job_initialized)
    as [_ [st [_ [_ [_ [Hst Hp]]]]]].
  eapply eq_trans; [exact Hp | ].
  rewrite Hst; [reflexivity | ].
  exists "PARTIAL". split; [reflexivity | discriminate].
Defined.

(** A failed write of onUpdate(10) ends in one call of pb.log.error. *)
Lemma persistence_failure_is_logged_only_witness :
  result (onUpdate (VNum (Fin 10)) VUndefined (Sample.start Sample.job))
  = Normal (RetVal VUndefined)
  /\ deliver (VError sample_failure) VUndefined
       (effects (onUpdate (VNum (Fin 10)) VUndefined
                   (Sample.start Sample.job))) =
     [LogError [VStr "JobRunner: Failed to update job progress - ";
                VStr "Error: connection lost at Db.update"]].
Proof.
  destruct (persistence_failure_is_logged_only sample_failure VUndefined
              (Sample.start Sample.job) VUndefined (VNum (Fin 10)) VUndefined
              VUndefined VUndefined sample_job_initialized)
    as [_ [Hupdate _]].
  exact Hupdate.
Defined.

(** From the progress 40, onUpdate(10) and onUpdate(15) lead to 65. *)
Lemma onUpdate_is_additive_witness :
  exists r' q,
    persist (VStr "42")
      (effects ((onUpdate (VNum (Fin 10)) VUndefined ;;
                 onUpdate (VNum (Fin 15)) VUndefined)
                  (Sample.start Sample.job)))
      (Some sample_record) = Some r'
    /\ rec_progress r' = VNum (Fin q)
    /\ (q == 40 + 25)%Q.
Proof.
  destruct (onUpdate_is_additive 40 (Sample.start Sample.job) sample_record
              sample_job_initialized) as [_ Hstored]; try reflexivity.
  exact Hstored.
Defined.

(** ** The further properties on the sample platform *)

#[local] Existing Instance SlideShareMediaRenderer.sample_node.

Lemma sample_ids_injective (a b : nat) :
  @uniqueId Sample.platform a = @uniqueId Sample.platform b -> a = b.
Proof.
  simpl. unfold Sample.unique_id, Sample.Z_to_string. intros H.
  injection H as H.
  assert (Hnn : forall n : nat,
            NilZero.int_of_string
              (NilZero.string_of_int (Z.to_int (Z.of_nat n)))
            = Some (Z.to_int (Z.of_nat n))).
  { intros n. apply NilZero.isi.
    - destruct n; simpl; [discriminate | ].
      intros E. injection E as E.
      exact (DecimalPos.Unsigned.to_uint_nonnil _ E).
    - destruct n; discriminate. }
  apply (f_equal NilZero.int_of_string) in H. rewrite !Hnn in H.
  injection H as H. apply DecimalZ.to_int_inj in H. lia.
Qed.

(** Setting the work-weight to a third and reading it back. *)
Lemma setChunkOfWorkPercentage_round_trip_witness :
  result (getChunkOfWorkPercentage
            (after (setChunkOfWorkPercentage (VNum (Fin (1 # 3)))
                      (Sample.start Sample.job))))
  = Normal (VNum (Fin (1 # 3))).
Proof.
  destruct (setChunkOfWorkPercentage_round_trip (VNum (Fin (1 # 3)))
              (Sample.start Sample.job)) as [_ [Hget _]];
    [reflexivity | exact Hget].
Defined.

(** onStart on an instance that was never initialized. *)
Lemma lifecycle_before_init_throws_witness :
  onStart VUndefined (Sample.start new_JobRunner)
  = mkOutcome (Sample.start new_JobRunner) []
      (Throw (TypeErrorOnNull "save")).
Proof.
  destruct (lifecycle_before_init_throws VUndefined [] VUndefined VUndefined
              VUndefined VUndefined VUndefined (Sample.start new_JobRunner))
    as [_ [Hstart _]]; [reflexivity | exact Hstart].
Defined.

(** Two instances initialized in a row get the ids id0 and id1. *)
Lemma init_ids_are_fresh_witness :
  id (this (after (init (VStr "a") VUndefined (Sample.start new_JobRunner))))
  <> id (this (after (init (VStr "b") VUndefined
                        {| this := new_JobRunner; uid_calls := 1;
                           next_ref := 0 |}))).
Proof.
  destruct (init_ids_are_fresh (VStr "a") VUndefined (VStr "b") VUndefined
              (VStr "c") (VStr "7") new_JobRunner
              (Sample.start new_JobRunner) sample_ids_injective)
    as [Hfresh _]; [reflexivity | reflexivity | exact Hfresh].
Defined.

(** onStart("QUEUED") over a record that was at progress 40. *)
Lemma onStart_resets_record_witness :
  exists st,
    (non_empty (VStr "QUEUED") -> st = VStr "QUEUED")
    /\ persist (VStr "42")
         (effects (onStart (VStr "QUEUED") (Sample.start Sample.job)))
         (Some sample_record) =
       Some {| rec_id := VStr "42"; rec_object_type := "job_run";
               rec_name := VStr "reindex"; rec_status := st;
               rec_progress := VNum (Fin 0); rec_error := VUndefined |}.
Proof.
  destruct (onStart_resets_record (VStr "QUEUED") (Sample.start Sample.job)
              (Some sample_record) sample_job_initialized)
    as [st [_ [Hst [_ Hstored]]]].
  exists st. split; [exact Hst | exact Hstored].
Defined.

(** onUpdate(10, "IMPORTING") from the progress 40. *)
Lemma onUpdate_single_update_witness :
  persist (VStr "42")
    (effects (onUpdate (VNum (Fin 10)) (VStr "IMPORTING")
                (Sample.start Sample.job))) (Some sample_record) =
  Some {| rec_id := VStr "42"; rec_object_type := "job_run";
          rec_name := VStr "reindex"; rec_status := VStr "IMPORTING";
          rec_progress := VNum (Fin (40 + 10)); rec_error := VUndefined |}.
Proof.
  destruct (onUpdate_single_update 10 40 (VStr "IMPORTING")
              (Sample.start Sample.job) sample_record sample_job_initialized)
    as [_ Hstored];
    [reflexivity | reflexivity | reflexivity | exact Hstored].
Defined.

(** onUpdate(undefined, "IMPORTING") keeps the progress 40. *)
Lemma onUpdate_status_only_witness :
  persist (VStr "42")
    (effects (onUpdate VUndefined (VStr "IMPORTING")
                (Sample.start Sample.job))) (Some sample_record) =
  Some {| rec_id := VStr "42"; rec_object_type := "job_run";
          rec_name := VStr "reindex"; rec_status := VStr "IMPORTING";
          rec_progress := VNum (Fin 40); rec_error := VUndefined |}.
Proof.
  destruct (onUpdate_status_only VUndefined (VStr "IMPORTING")
              (Sample.start Sample.job) sample_record sample_job_initialized)
    as [_ Hstored]; [reflexivity | reflexivity | exact Hstored].
Defined.

(** The log line of onUpdate(10, "IMPORTING"). *)
Lemma lifecycle_log_lines_witness :
  map message
    (log_entries (effects (onUpdate (VNum (Fin 10)) (VStr "IMPORTING")
                             (Sample.start Sample.job))))
  = ["reindex: Updating job [42:reindex] by 10 percent with status: IMPORTING"].
Proof.
  destruct (lifecycle_log_lines (VNum (Fin 10)) (VStr "IMPORTING") VUndefined
              VUndefined (Sample.start Sample.job) sample_job_initialized)
    as [[u Hupdate] _]; [reflexivity | ].
  rewrite Hupdate. reflexivity.
Defined.




(** A failure that the DAO reports as a string is not logged. *)
Lemma success_is_silent_witness :
  deliver (VStr "write failed") VUndefined
    (effects (onUpdate (VNum (Fin 10)) VUndefined (Sample.start Sample.job)))
  = [].
Proof.
  destruct (success_is_silent (VStr "write failed") VUndefined
              (Sample.start Sample.job) VUndefined (VNum (Fin 10)) VUndefined
              VUndefined VUndefined sample_job_initialized)
    as [_ [Hupdate _]]; [reflexivity | exact Hupdate].
Defined.

Module SlideShareSamples.

Import SlideShareMediaRenderer.

Lemma sample_url_is_full_site : full_site "www.slideshare.net" "/acme/deck".
Proof.
  split; [right; exists "www.", "" | exists "", "acme/deck"]; reflexivity.
Qed.

(** The URL of the sample is supported. *)
Lemma getType_follows_the_host_witness :
  isSupported sample_url = Ok true
  /\ getType sample_url = Ok (Str "slideshare").
Proof.
  destruct (SlideShare.getType_follows_the_host sample_url
              "www.slideshare.net" "/acme/deck") as [Hyes _];
    [reflexivity | reflexivity | exact (Hyes sample_url_is_full_site)].
Defined.

(** A path alone has no host. *)
Lemma isSupported_throws_without_host_witness :
  isSupported "acme/deck"
  = Thrown (Err (null_property_error Null "indexOf")).
Proof.
  destruct (SlideShare.isSupported_throws_without_host "acme/deck"
              "acme/deck") as [_ [Hthrows _]];
    [reflexivity | exact Hthrows].
Defined.

(** The details of the sample reach a callback that returns. *)
Lemma getDetails_reports_once_witness :
  snd (getDetails sample_url (observe quiet)) (complete sample_chunks)
  = ([Called Null (Obj sample_details)], Ok tt).
Proof.
  destruct (SlideShare.getDetails_reports_once sample_url sample_chunks quiet)
    as [_ [Hdata _]].
  apply Hdata; reflexivity.
Defined.

(** A callback that throws on the details is called again. *)
Lemma getDetails_calls_back_twice_witness :
  snd (getDetails sample_url (observe fussy)) (complete sample_chunks)
  = ([Called Null (Obj sample_details);
      Called (Str "cannot use the data") Undefined], Ok tt).
Proof.
  apply (SlideShare.getDetails_calls_back_twice sample_url sample_chunks
           fussy (Obj sample_details) (Str "cannot use the data"));
    reflexivity.
Defined.

(** The media id of the sample is 42. *)
Lemma getMediaId_reports_the_property_witness :
  snd (getMediaId sample_url (observe quiet)) (complete sample_chunks)
  = ([Called Null (Num (Fin 42))], Ok tt).
Proof.
  destruct (SlideShare.getMediaId_reports_the_property sample_url
              sample_chunks quiet) as [Hobject _].
  destruct (Hobject sample_details eq_refl) as [Hid _].
  apply Hid. reflexivity.
Defined.

(** render({location: 42}, cb). *)
Lemma render_call_shapes_witness :
  render (Obj [("location", Num (Fin 42))]) (Fn (observe quiet)) None
  = ([Called Null
        (Str "<iframe src=//www.slideshare.net/slideshow/embed_code/42>")],
     Ok tt).
Proof.
  destruct (SlideShare.render_call_shapes (Obj [("location", Num (Fin 42))])
              (Num (Fin 42)) "42" quiet None []) as [_ [Hshape _]];
    [reflexivity | reflexivity | exact Hshape].
Defined.

(** renderByUrl(url, {}, cb) on the sample. *)
Lemma renderByUrl_renders_the_slideshow_witness :
  snd (renderByUrl sample_url (Val (Obj [])) (Some (observe quiet)))
    (complete sample_chunks)
  = ([Called Null
        (Str "<iframe src=//www.slideshare.net/slideshow/embed_code/42>")],
     Ok tt).
Proof.
  destruct (SlideShare.renderByUrl_renders_the_slideshow sample_url
              sample_chunks sample_details [] "42" quiet network_error)
    as [Hrender _].
  apply Hrender; reflexivity.
Defined.

(** renderByUrl(url, cb) on a response that is not JSON. *)
Lemma renderByUrl_two_arguments_witness :
  snd (renderByUrl sample_url (Fn (observe quiet)) None)
    (complete ["<html>"])
  = ([], Thrown (Err (not_a_function_error "cb"))).
Proof.
  destruct (SlideShare.renderByUrl_two_arguments sample_url ["<html>"]
              sample_details "42" quiet
              {| err_name := "SyntaxError";
                 err_message := "Unexpected token";
                 err_stack := "SyntaxError: Unexpected token" |})
    as [_ [_ Hsyntax]].
  apply Hsyntax. reflexivity.
Defined.

End SlideShareSamples.
